(** * Authorization-Go: token lifecycle and request gate

    A shallow embedding of the Go packages [handlers], [middleware] and
    [client] of the authentication gateway, together with the facts
    about them that the specification relies on.

    Strings are Go byte strings ([string], one [ascii] per byte).  Go's
    [(value, error)] results are sums, a run-time panic is an outcome of
    its own, and the remote identity store, the wall clock and the log
    of outgoing HTTP calls are threaded through every operation as an
    explicit [World]. *)

From Stdlib Require Import ZArith String Ascii List Bool Lia.
From Stdlib Require Import DecimalString.
From stdpp Require Import base option strings gmap.

Import ListNotations.
Local Open Scope string_scope.
Local Open Scope Z_scope.

(** ** Go's [strings] package, as far as the service uses it *)

Module strings.

(** [unicode.ToLower] on one byte.  Only the ASCII letters are mapped;
    a byte of a multi-byte UTF-8 sequence is left alone, so [ToLower]
    below is Go's [strings.ToLower] on ASCII-only input. *)
Definition lower_byte (c : ascii) : ascii :=
  let n := N_of_ascii c in
  if ((65 <=? n) && (n <=? 90))%N then ascii_of_N (n + 32) else c.

Fixpoint ToLower (s : string) : string :=
  match s with
  | EmptyString => EmptyString
  | String c r => String (lower_byte c) (ToLower r)
  end.

Definition is_ascii (s : string) : Prop :=
  Forall (fun c => (N_of_ascii c < 128)%N) (list_ascii_of_string s).

Definition HasPrefix (s pre : string) : bool := String.prefix pre s.

Definition TrimPrefix (s pre : string) : string :=
  if HasPrefix s pre
  then String.substring (String.length pre)
                        (String.length s - String.length pre) s
  else s.

(** [strings.Split(s, sep)] for a one-byte separator: one more piece
    than there are separators, so the empty string gives one piece. *)
Fixpoint Split (s : string) (sep : ascii) : list string :=
  match s with
  | EmptyString => [EmptyString]
  | String c r =>
      if Ascii.eqb c sep then EmptyString :: Split r sep
      else match Split r sep with
           | p :: ps => String c p :: ps
           | [] => [String c EmptyString]
           end
  end.

(** The slice expression [s[:n]]: it panics when [n > len(s)], which
    is the [None] here. *)
Definition slice_to (s : string) (n : nat) : option string :=
  if (n <=? String.length s)%nat then Some (String.substring 0 n s) else None.

End strings.

(** ** Package [models] *)

Module models.

(** Credentials of a login request; both fields carry
    [binding:"required"]. *)
Module User.
Record t := mk { Username : string; Password : string }.
End User.

(** A user record as the remote store returns it. *)
Module UserData.
Record t := mk {
  Login : string;
  Password : string;
  AgencyID : Z;
  JWTToken : string
}.
Definition zero : t := mk EmptyString EmptyString 0 EmptyString.
End UserData.

(** Body of the token update and token delete calls. *)
Module LocalAPIRequest.
Record t := mk { MicroName : string; Login : string; JWTToken : string }.
End LocalAPIRequest.

End models.

(** ** The world outside the process

    The remote identity store is a separate service.  Its state is a
    finite map from the identity a request names to the record that the
    store answers with; nothing forces the [Login] of that record to be
    the key it is filed under.  [now] is the next reading of the wall
    clock and [later] the readings after it.  [net] says how the next
    HTTP exchanges go, and [calls] logs every request sent, newest
    first. *)

Inductive Transport :=
| Healthy                  (* the store answers *)
| Unreachable              (* the request does not arrive, the client gets an error *)
| Overloaded               (* a 503 answer, the store does nothing *)
| Garbled                  (* the store answers, the body does not decode *)
| Lost.                    (* the store acts, its answer does not arrive *)

Inductive Request :=
| GetUserData (service username : string)
| TokenUpdate (req : models.LocalAPIRequest.t)
| TokenDelete (req : models.LocalAPIRequest.t).

Record World := mkWorld {
  db : gmap string models.UserData.t;
  now : Z;
  later : list Z;
  net : list Transport;
  calls : list Request
}.

(** An operation either completes with a value or panics. *)
Inductive Outcome (A : Type) :=
| Done (a : A) (w : World)
| Panicked (w : World).
Arguments Done {A} a w.
Arguments Panicked {A} w.

Definition Go (A : Type) : Type := World -> Outcome A.

Definition ret {A} (a : A) : Go A := fun w => Done a w.

Definition bind {A B} (m : Go A) (k : A -> Go B) : Go B :=
  fun w => match m w with
           | Done a w' => k a w'
           | Panicked w' => Panicked w'
           end.

Definition panic {A} : Go A := fun w => Panicked w.

Declare Scope go_scope.
Delimit Scope go_scope with go.
Notation "x <- m ;; k" := (bind m (fun x => k))
  (at level 100, m at next level, right associativity) : go_scope.
Local Open Scope go_scope.

(** ** Package [time]: instants and durations in nanoseconds *)

Module time.

Definition Second : Z := 1000000000.
Definition Hour : Z := 3600 * Second.

(** The clock moves on to its next reading, if there is one. *)
Definition advance (w : World) : World :=
  match later w with
  | [] => w
  | t :: l => mkWorld (db w) t l (net w) (calls w)
  end.

(** [time.Now()]: the reading [now], after which the clock moves on. *)
Definition Now : Go Z := fun w => Done (now w) (advance w).

(** [t.Truncate(d)] for a positive [d]: round down to a multiple of [d]. *)
Definition Truncate (t d : Z) : Z := t / d * d.

(** The reading of the clock after [n] earlier ones. *)
Definition reading (n : nat) (w : World) : Z := now (Nat.iter n advance w).

End time.

(** ** Package [net/http], seen from the client, and the remote store *)

Module http.

Definition StatusOK : Z := 200.
Definition StatusBadRequest : Z := 400.
Definition StatusUnauthorized : Z := 401.
Definition StatusNotFound : Z := 404.
Definition StatusInternalServerError : Z := 500.
Definition StatusServiceUnavailable : Z := 503.

(** What [HTTPClient.Post] and [HTTPClient.Do] give back: an error, or
    a response with its status and its body as far as it decodes into
    [struct { Data models.UserData }]. *)
Inductive Exchange :=
| Failed
| Response (StatusCode : Z) (Body : option models.UserData.t).

Definition set_token (r : models.UserData.t) (tok : string) : models.UserData.t :=
  models.UserData.mk (models.UserData.Login r) (models.UserData.Password r)
                     (models.UserData.AgencyID r) tok.

(** Modelled from the spec: the remote identity store is not part of the
    repository; section 6 gives its contract.  user-by-identity returns
    the record on file and not-found when there is none, update-token
    overwrites the stored current token, clear-token clears it to the
    empty value, and success is status 200. *)
Definition serve (r : Request) (d : gmap string models.UserData.t)
  : Z * option models.UserData.t * gmap string models.UserData.t :=
  match r with
  | GetUserData _ username =>
      match d !! username with
      | Some rec => (StatusOK, Some rec, d)
      | None => (StatusNotFound, None, d)
      end
  | TokenUpdate q =>
      match d !! models.LocalAPIRequest.Login q with
      | Some rec =>
          (StatusOK, None,
           <[models.LocalAPIRequest.Login q :=
               set_token rec (models.LocalAPIRequest.JWTToken q)]> d)
      | None => (StatusNotFound, None, d)
      end
  | TokenDelete q =>
      match d !! models.LocalAPIRequest.Login q with
      | Some rec =>
          (StatusOK, None, <[models.LocalAPIRequest.Login q := set_token rec EmptyString]> d)
      | None => (StatusNotFound, None, d)
      end
  end.

(** One request/response exchange.  The request is logged, the head of
    [net] decides how the exchange goes, and an empty [net] is a healthy
    network. *)
Definition Do (r : Request) : Go Exchange :=
  fun w =>
    let log := r :: calls w in
    match net w with
    | [] =>
        let '(st, body, d) := serve r (db w) in
        Done (Response st body) (mkWorld d (now w) (later w) [] log)
    | Healthy :: n =>
        let '(st, body, d) := serve r (db w) in
        Done (Response st body) (mkWorld d (now w) (later w) n log)
    | Unreachable :: n =>
        Done Failed (mkWorld (db w) (now w) (later w) n log)
    | Overloaded :: n =>
        Done (Response StatusServiceUnavailable None)
             (mkWorld (db w) (now w) (later w) n log)
    | Garbled :: n =>
        let '(st, _, d) := serve r (db w) in
        Done (Response st None) (mkWorld d (now w) (later w) n log)
    | Lost :: n =>
        let '(_, _, d) := serve r (db w) in
        Done Failed (mkWorld d (now w) (later w) n log)
    end.

End http.

(** ** Package [github.com/golang-jwt/jwt/v5]

    The library is a dependency, not part of the repository.  Its
    control flow is written out below as the library documents it; the
    byte-level work (base64url, JSON, the MAC) stays abstract in the
    class [Library]. *)

Module jwt.

(** The registered claims that the validator looks at.  Issuer, subject,
    audience and id are never set or checked by the service. *)
Record RegisteredClaims := mkRegisteredClaims {
  ExpiresAt : option Z;
  NotBefore : option Z;
  IssuedAt : option Z
}.

(** The [jwt.Claims] interface. *)
Class Claims (C : Type) := {
  GetExpirationTime : C -> option Z;
  GetNotBefore : C -> option Z
}.

(** The primitives of the library for a claims type [C].
    [GetSigningMethod alg] tells whether a method is registered under
    the name; a registered method reports that name as its [Alg()].
    [Sign alg text key] is [Method.Sign] with a [[]byte] key, [None]
    when the method does not sign with such a key.  [DecodeHeader]
    gives [None] when the segment is not base64url of a JSON object and
    [Some None] when the object has no string under ["alg"]. *)
Class Library (C : Type) := {
  GetSigningMethod : string -> bool;
  Sign : string -> string -> string -> option string;
  EncodeHeader : string -> string;
  DecodeHeader : string -> option (option string);
  EncodeClaims : C -> string;
  DecodeClaims : string -> option C;
  EncodeSegment : string -> string;
  DecodeSegment : string -> option string
}.

Inductive error :=
| ErrTokenMalformed
| ErrTokenUnverifiable           (* alg missing or not registered *)
| ErrKeyfunc                     (* ErrTokenUnverifiable around the key function's error *)
| ErrTokenSignatureInvalid
| ErrTokenInvalidClaims (expired notValidYet : bool).

(** [TimePrecision] is left at its default of one second. *)
Definition TimePrecision : Z := time.Second.

Definition NewNumericDate (t : Z) : Z := time.Truncate t TimePrecision.

(** [Method.Verify] with a [[]byte] key: the tag is computed again and
    compared with the one presented. *)
Definition Verify {C} `{Library C} (alg text sig key : string) : bool :=
  match Sign alg text key with
  | Some tag => String.eqb tag sig
  | None => false
  end.

(** [Token.SignedString]. *)
Definition SignedString {C} `{Library C} (alg : string) (claims : C) (key : string)
  : option string :=
  let sstr := EncodeHeader alg +:+ "." +:+ EncodeClaims claims in
  match Sign alg sstr key with
  | Some sig => Some (sstr +:+ "." +:+ EncodeSegment sig)
  | None => None
  end.

(** [Parser.ParseUnverified]: the method name, the claims, the signing
    string and the signature segment. *)
Definition ParseUnverified {C} `{Library C} (tokenString : string)
  : error + (string * C * string * string) :=
  match strings.Split tokenString "."%char with
  | [h; p; s] =>
      match DecodeHeader h with
      | None => inl ErrTokenMalformed
      | Some header =>
          match DecodeClaims p with
          | None => inl ErrTokenMalformed
          | Some claims =>
              match header with
              | Some alg =>
                  if GetSigningMethod alg
                  then inr (alg, claims, h +:+ "." +:+ p, s)
                  else inl ErrTokenUnverifiable
              | None => inl ErrTokenUnverifiable
              end
          end
      end
  | _ => inl ErrTokenMalformed
  end.

(** [Validator.Validate] with the default options: [exp] and [nbf] are
    optional, a present [exp] must lie after the current time
    ([cmp.Before(exp)]), a present [nbf] must not ([!cmp.Before(nbf)]).
    Both checks run and their failures are reported together. *)
Definition verifyExpiresAt {C} `{Claims C} (claims : C) (cmp : Z) : bool :=
  match GetExpirationTime claims with
  | Some exp => cmp <? exp
  | None => true
  end.

Definition verifyNotBefore {C} `{Claims C} (claims : C) (cmp : Z) : bool :=
  match GetNotBefore claims with
  | Some nbf => negb (cmp <? nbf)
  | None => true
  end.

Definition Validate {C} `{Claims C} (claims : C) : Go (option error) :=
  t <- time.Now ;;
  let expired := negb (verifyExpiresAt claims t) in
  let early := negb (verifyNotBefore claims t) in
  if expired || early then ret (Some (ErrTokenInvalidClaims expired early))
  else ret None.

(** [ParseWithClaims].  [keyFunc] receives the token; all it can see of
    the method is the name. *)
Definition ParseWithClaims {C E} `{Library C} `{Claims C}
    (tokenString : string) (keyFunc : string -> E + string) : Go (error + C) :=
  match ParseUnverified tokenString with
  | inl e => ret (inl e)
  | inr (alg, claims, text, s) =>
      match DecodeSegment s with
      | None => ret (inl ErrTokenMalformed)
      | Some sig =>
          match keyFunc alg with
          | inl _ => ret (inl ErrKeyfunc)
          | inr key =>
              if Verify alg text sig key
              then v <- Validate claims ;;
                   match v with
                   | Some e => ret (inl e)
                   | None => ret (inr claims)
                   end
              else ret (inl ErrTokenSignatureInvalid)
          end
      end
  end.

End jwt.

(** ** Go [error] values of the service

    An error is told apart by its message.  [ErrUserNotFound] is the
    one message that both [client.GetUser] and [ValidateToken] build. *)

Inductive error :=
| ErrNetwork                      (* "ошибка сетевого запроса: ..." *)
| ErrAPI (status : Z)             (* "API вернул ошибку: <status> - <body>" *)
| ErrDecode                       (* "ошибка декодирования ответа: ..." *)
| ErrUserNotFound                 (* "пользователь не найден" *)
| ErrAlgorithm                    (* "некорректный алгоритм подписи" *)
| ErrSigning                      (* what SignedString returns *)
| ErrJWT (e : jwt.error)          (* what ParseWithClaims returns *)
| ErrInvalidToken (cause : error) (* "некорректный токен: " + err.Error() *)
| ErrNoUsername                   (* "некорректный токен: отсутствует имя пользователя" *)
| ErrNoAgency                     (* "некорректный токен: отсутствует ID агентства" *)
| ErrTokenExpired                 (* "токен истек" *)
| ErrTokenMismatch.               (* "токен не соответствует сохраненному в БД" *)

(** ** Package [config] *)

Module config.

Record Config := mkConfig {
  ServiceName : string;
  ServerPort : Z;
  LogLevel : string;
  LocalAPIURL : string
}.

Inductive LoadError :=
| OpenError        (* what os.Open returns *)
| DecodeError.     (* what decoder.Decode returns *)

(** [read path] is what the file system holds under [path]: [None]
    when the file cannot be opened, [Some None] when it opens and is
    not JSON for a [Config], and else the decoded struct, in which a
    field the file leaves out is zero. *)
Definition LoadConfig (read : string -> option (option Config)) (path : string)
  : LoadError + Config :=
  match read path with
  | None => inl OpenError
  | Some None => inl DecodeError
  | Some (Some config) =>
      let config :=
        if ServerPort config =? 0
        then mkConfig (ServiceName config) 8080 (LogLevel config) (LocalAPIURL config)
        else config in
      let config :=
        if String.eqb (LogLevel config) EmptyString
        then mkConfig (ServiceName config) (ServerPort config) "info" (LocalAPIURL config)
        else config in
      let config :=
        if String.eqb (LocalAPIURL config) EmptyString
        then mkConfig (ServiceName config) (ServerPort config) (LogLevel config)
                      "http://web:8000"
        else config in
      inr config
  end.

End config.

(** ** Package [logger]

    The four [log.Logger]s write to one file and differ in their
    prefix.  A call that gets through the level check is modelled by
    what it hands to [Printf]: the logger, the format and the
    arguments. *)

Module logger.

Definition DEBUG : Z := 0.
Definition INFO : Z := 1.
Definition WARN : Z := 2.
Definition ERROR : Z := 3.

Definition colorReset : string := String "027"%char "[0m".
Definition colorRed : string := String "027"%char "[31m".
Definition colorGreen : string := String "027"%char "[32m".
Definition colorYellow : string := String "027"%char "[33m".
Definition colorBlue : string := String "027"%char "[34m".

Inductive Logger := infoLogger | warnLogger | errorLogger | debugLogger.

Definition prefix (l : Logger) : string :=
  match l with
  | infoLogger => colorGreen +:+ "[INFO]" +:+ colorReset +:+ " "
  | warnLogger => colorYellow +:+ "[WARN]" +:+ colorReset +:+ " "
  | errorLogger => colorRed +:+ "[ERROR]" +:+ colorReset +:+ " "
  | debugLogger => colorBlue +:+ "[DEBUG]" +:+ colorReset +:+ " "
  end.

Record ColorfulLogger := mkColorfulLogger { logLevel : Z }.

(** [opened] says whether logs/authka.log could be opened; if not,
    [log.Fatalf] ends the process, which is the [None]. *)
Definition NewColorfulLogger (opened : bool) (cfg : config.Config)
  : option ColorfulLogger :=
  if opened then
    let logLevel :=
      if String.eqb (config.LogLevel cfg) "debug" then DEBUG
      else if String.eqb (config.LogLevel cfg) "info" then INFO
      else if String.eqb (config.LogLevel cfg) "warn" then WARN
      else if String.eqb (config.LogLevel cfg) "error" then ERROR
      else INFO in
    Some (mkColorfulLogger logLevel)
  else None.

Section Printf.

Variable A : Type.

Definition Debug (l : ColorfulLogger) (format : string) (v : list A)
  : option (Logger * string * list A) :=
  if logLevel l <=? DEBUG then Some (debugLogger, format, v) else None.

Definition Info (l : ColorfulLogger) (format : string) (v : list A)
  : option (Logger * string * list A) :=
  if logLevel l <=? INFO then Some (infoLogger, format, v) else None.

Definition Warn (l : ColorfulLogger) (format : string) (v : list A)
  : option (Logger * string * list A) :=
  if logLevel l <=? WARN then Some (warnLogger, format, v) else None.

Definition Error (l : ColorfulLogger) (format : string) (v : list A)
  : option (Logger * string * list A) :=
  if logLevel l <=? ERROR then Some (errorLogger, format, v) else None.

(** [%d] of an [int]. *)
Definition Itoa (n : Z) : string := NilZero.string_of_int (Z.to_int n).

Definition statusColor (status : Z) : string :=
  if (200 <=? status) && (status <? 300) then colorGreen
  else if (300 <=? status) && (status <? 400) then colorBlue
  else if (400 <=? status) && (status <? 500) then colorYellow
  else colorRed.

(** [duration] is [duration.String()].  The finished line is handed
    to [Warn] or [Info] as the format, with no arguments. *)
Definition LogRequest (l : ColorfulLogger) (method path ip : string) (status : Z)
    (duration : string) : option (Logger * string * list A) :=
  let logMessage :=
    method +:+ " " +:+ path +:+ " " +:+ statusColor status +:+ Itoa status
    +:+ colorReset +:+ " " +:+ duration +:+ " " +:+ ip in
  if 400 <=? status then Warn l logMessage [] else Info l logMessage [].

End Printf.

End logger.

(** ** Package [utils] *)

Module bcrypt.

(** [CompareHashAndPassword hashed plain] is [true] when the library
    returns a nil error. *)
Class Library := { CompareHashAndPassword : string -> string -> bool }.

End bcrypt.

Module utils.

Definition VerifyPassword `{bcrypt.Library} (plainPassword hashedPassword : string) : bool :=
  bcrypt.CompareHashAndPassword hashedPassword plainPassword.

End utils.

(** ** Package [net/url], as far as [GetUser] depends on it

    [GetUser] splices the username into the query string without
    escaping it.  A username made of unreserved characters (letters,
    digits, and the four marks - . _ ~) reaches the store as it was
    written; any other byte may make the store read another identity
    out of the URL: # cuts the query short, & ends the parameter, + and
    % are decoded. *)

Module url.

Definition unreserved (c : ascii) : bool :=
  let n := N_of_ascii c in
  ((48 <=? n) && (n <=? 57) || (65 <=? n) && (n <=? 90) || (97 <=? n) && (n <=? 122)
   || (n =? 45) || (n =? 46) || (n =? 95) || (n =? 126))%N.

Definition plain (s : string) : Prop :=
  Forall (fun c => unreserved c = true) (list_ascii_of_string s).

End url.

(** ** Package [client]

    [json.Marshal] of the request bodies cannot fail and the base URL is
    taken to be well formed, so the branches for those errors are left
    out.  [GetUser] puts the username into the query string as it is;
    the identity asked for is taken to be that username, which is so
    for a [url.plain] username, and what a lookup of any other username
    returns is outside this model: statements about the record that a
    lookup of a client-supplied username returns carry [url.plain] as
    a premise. *)

Module client.

Record APIClient := mkAPIClient { BaseURL : string; ServiceName : string }.

Definition NewAPIClient (cfg : config.Config) : APIClient :=
  mkAPIClient (config.LocalAPIURL cfg) (config.ServiceName cfg).

Definition GetUser (c : APIClient) (username : string)
  : Go (error + models.UserData.t) :=
  resp <- http.Do (GetUserData (ServiceName c) username) ;;
  match resp with
  | http.Failed => ret (inl ErrNetwork)
  | http.Response status body =>
      if negb (status =? http.StatusOK) then ret (inl (ErrAPI status))
      else match body with
           | None => ret (inl ErrDecode)
           | Some data =>
               if String.eqb (models.UserData.Login data) EmptyString
               then ret (inl ErrUserNotFound)
               else ret (inr data)
           end
  end.

Definition UpdateToken (c : APIClient) (username token : string) : Go (option error) :=
  resp <- http.Do (TokenUpdate (models.LocalAPIRequest.mk (ServiceName c) username token)) ;;
  match resp with
  | http.Failed => ret (Some ErrNetwork)
  | http.Response status _ =>
      if negb (status =? http.StatusOK) then ret (Some (ErrAPI status)) else ret None
  end.

Definition DeleteToken (c : APIClient) (username token : string) : Go (option error) :=
  resp <- http.Do (TokenDelete (models.LocalAPIRequest.mk (ServiceName c) username token)) ;;
  match resp with
  | http.Failed => ret (Some ErrNetwork)
  | http.Response status _ =>
      if negb (status =? http.StatusOK) then ret (Some (ErrAPI status)) else ret None
  end.

End client.

(** ** Package [github.com/gin-gonic/gin], as far as the handlers use it *)

Module gin.

Inductive any := Str (s : string) | Int (n : Z).

(** The fixed texts sent to clients. *)
Inductive Text :=
| NoAuthorizationHeader           (* "Отсутствует заголовок авторизации" *)
| InvalidToken (err : error)      (* "Недействительный токен: " + err.Error() *)
| BadRequestData                  (* "Некорректные данные запроса" *)
| BadFormData                     (* "Некорректные данные формы" *)
| UserNotFound                    (* "Пользователь не найден" *)
| WrongPassword                   (* "Неверный пароль" *)
| WrongUsernameOrPassword         (* "Неверное имя пользователя или пароль" *)
| TokenCreationFailed             (* "Ошибка создания токена" *)
| TokenUpdateFailed               (* "Ошибка обновления токена в БД" *)
| TokenDeleteFailed               (* "Ошибка удаления токена из БД" *)
| LoggedOut.                      (* "Успешный выход из системы" *)

(** The JSON bodies: [gin.H{"error": ...}] and the response types of
    package [models]. *)
Inductive Body :=
| H_error (msg : Text)
| ErrorResponse (Error : Text)
| TokenResponse (AccessToken TokenType : string)
| TokenVerifyResponse (Valid : bool) (Username : string) (AgencyID : Z)
| Message (msg : Text).

(** A request in flight: the Authorization header, the credentials the
    body or form carries ([None] when it does not decode), the keys set
    so far, whether the chain was aborted, and the response written.
    [Credentials] is what the binder of the handler that runs reads:
    [ShouldBindJSON] in [Login], the binder chosen by the Content-Type
    in [CreateToken].  The two read the same from a JSON body sent as
    application/json and may differ on any other body, so one context
    stands for one request to both handlers only in that case. *)
Record Context := mkContext {
  Authorization : string;
  Credentials : option models.User.t;
  Keys : gmap string any;
  Aborted : bool;
  Written : option (Z * Body)
}.

Definition HandlerFunc : Type := Context -> Go Context.

Definition request (authorization : string) (credentials : option models.User.t) : Context :=
  mkContext authorization credentials ∅ false None.

Definition JSON (c : Context) (code : Z) (obj : Body) : Context :=
  mkContext (Authorization c) (Credentials c) (Keys c) (Aborted c) (Some (code, obj)).

Definition Abort (c : Context) : Context :=
  mkContext (Authorization c) (Credentials c) (Keys c) true (Written c).

Definition Set_ (c : Context) (key : string) (value : any) : Context :=
  mkContext (Authorization c) (Credentials c) (<[key := value]> (Keys c))
            (Aborted c) (Written c).

Definition GetString (c : Context) (key : string) : string :=
  match Keys c !! key with
  | Some (Str s) => s
  | _ => EmptyString
  end.

Definition GetInt (c : Context) (key : string) : Z :=
  match Keys c !! key with
  | Some (Int n) => n
  | _ => 0
  end.

(** [ShouldBindJSON] and [ShouldBind] into a struct whose two fields
    are [binding:"required"]: the body must decode and neither field
    may be empty. *)
Definition ShouldBind (c : Context) : option models.User.t :=
  match Credentials c with
  | Some u =>
      if String.eqb (models.User.Username u) EmptyString || String.eqb (models.User.Password u) EmptyString
      then None else Some u
  | None => None
  end.

(** A request as it arrives, as far as the two binders go: whether its
    Content-Type is application/json, what [binding.JSON] decodes from
    the body, and what the binder that [binding.Default] picks for any
    other Content-Type of a POST decodes from it (the form binder,
    unless the type names XML, YAML, TOML, ProtoBuf, MsgPack or a
    multipart form).  [binding.JSON] reads the same keys into the
    struct of [Login], by its json tags, and into the struct of
    [CreateToken], by its field names, as [encoding/json] matches both
    without regard to letter case; hence the one field [AsJSON]. *)
Record Incoming := mkIncoming {
  IsJSON : bool;
  AsJSON : option models.User.t;
  AsOther : option models.User.t
}.

(** The context of a handler that binds with [ShouldBindJSON], and the
    context of one that binds with [ShouldBind]. *)
Definition boundJSON (authorization : string) (i : Incoming) : Context :=
  request authorization (AsJSON i).

Definition boundByContentType (authorization : string) (i : Incoming) : Context :=
  request authorization (if IsJSON i then AsJSON i else AsOther i).

End gin.

(** ** Package [handlers] *)

Module handlers.

(** The logger is left out: logging has no effect on any result.  What
    stays is the evaluation of the arguments of a log call, which can
    panic. *)
Record AppContext := mkAppContext {
  Config : config.Config;
  SecretKey : string;
  Algorithm : string;
  TokenTTL : Z
}.

Record Claims := mkClaims {
  Username : string;            (* json:"sub" *)
  AgencyID : Z;                 (* json:"ngy" *)
  Registered : jwt.RegisteredClaims
}.

#[global] Instance Claims_jwt : jwt.Claims Claims := {
  GetExpirationTime c := jwt.ExpiresAt (Registered c);
  GetNotBefore c := jwt.NotBefore (Registered c)
}.

(** The claims literal of [createToken]: no [nbf], the two dates cut
    to whole seconds by [jwt.NewNumericDate]. *)
Definition newClaims (username : string) (agencyID : Z) (expirationTime issuedAt : Z)
  : Claims :=
  mkClaims username agencyID
    (jwt.mkRegisteredClaims (Some (jwt.NewNumericDate expirationTime))
                            None
                            (Some (jwt.NewNumericDate issuedAt))).

Section WithLibraries.

Context `{JWT : jwt.Library Claims} `{BC : bcrypt.Library}.

(** [jwt.NewWithClaims] calls [Alg()] on the method it is given, so a
    name that no method is registered under makes it panic. *)
Definition createToken (ctx : AppContext) (username : string) (agencyID : Z)
  : Go (error + string) :=
  t0 <- time.Now ;;
  let expirationTime := t0 + TokenTTL ctx in
  t1 <- time.Now ;;
  let claims := newClaims username agencyID expirationTime t1 in
  if jwt.GetSigningMethod (Algorithm ctx)
  then match jwt.SignedString (Algorithm ctx) claims (SecretKey ctx) with
       | Some tokenString => ret (inr tokenString)
       | None => ret (inl ErrSigning)
       end
  else panic.

(** The key function handed to [jwt.ParseWithClaims]. *)
Definition keyFunc (ctx : AppContext) (alg : string) : error + string :=
  if negb (String.eqb alg (Algorithm ctx)) then inl ErrAlgorithm
  else inr (SecretKey ctx).

(** The first statement logs [tokenString[:10]].  After a nil error
    the library has set [token.Valid], so the final "invalid token"
    return of the source is never taken. *)
Definition parseAndValidateToken (ctx : AppContext) (tokenString : string)
  : Go (error + Claims) :=
  match strings.slice_to tokenString 10 with
  | None => panic
  | Some _ =>
      r <- jwt.ParseWithClaims tokenString (keyFunc ctx) ;;
      match r with
      | inl err => ret (inl (ErrJWT err))
      | inr claims => ret (inr claims)
      end
  end.

(** [claims.ExpiresAt] is a pointer: without an [exp] claim the
    expiry check dereferences nil, after the clock has been read. *)
Definition ValidateToken (ctx : AppContext) (tokenString : string)
  : Go (error + Claims) :=
  r <- parseAndValidateToken ctx tokenString ;;
  match r with
  | inl err => ret (inl (ErrInvalidToken err))
  | inr claims =>
      if String.eqb (Username claims) EmptyString then ret (inl ErrNoUsername)
      else if AgencyID claims <? 0 then ret (inl ErrNoAgency)
      else
        t <- time.Now ;;
        match jwt.ExpiresAt (Registered claims) with
        | None => panic
        | Some exp =>
            if exp <? t then ret (inl ErrTokenExpired)
            else
              let apiClient := client.NewAPIClient (Config ctx) in
              u <- client.GetUser apiClient (Username claims) ;;
              match u with
              | inl _ => ret (inl ErrUserNotFound)
              | inr user =>
                  if negb (String.eqb (models.UserData.JWTToken user) tokenString)
                  then ret (inl ErrTokenMismatch)
                  else ret (inr claims)
              end
        end
  end.

Definition Login (appCtx : AppContext) : gin.HandlerFunc :=
  fun c =>
    match gin.ShouldBind c with
    | None =>
        ret (gin.JSON c http.StatusBadRequest (gin.ErrorResponse gin.BadRequestData))
    | Some userData =>
        let apiClient := client.NewAPIClient (Config appCtx) in
        r <- client.GetUser apiClient (models.User.Username userData) ;;
        match r with
        | inl _ =>
            ret (gin.JSON c http.StatusUnauthorized (gin.ErrorResponse gin.UserNotFound))
        | inr user =>
            if negb (utils.VerifyPassword (models.User.Password userData)
                                          (models.UserData.Password user))
            then ret (gin.JSON c http.StatusUnauthorized
                               (gin.ErrorResponse gin.WrongPassword))
            else
              t <- createToken appCtx (models.UserData.Login user)
                                      (models.UserData.AgencyID user) ;;
              match t with
              | inl _ =>
                  ret (gin.JSON c http.StatusInternalServerError
                                (gin.ErrorResponse gin.TokenCreationFailed))
              | inr token =>
                  e <- client.UpdateToken apiClient (models.User.Username userData) token ;;
                  match e with
                  | Some _ =>
                      ret (gin.JSON c http.StatusInternalServerError
                                    (gin.ErrorResponse gin.TokenUpdateFailed))
                  | None =>
                      ret (gin.JSON c http.StatusOK (gin.TokenResponse token "bearer"))
                  end
              end
        end
    end.

Definition CreateToken (appCtx : AppContext) : gin.HandlerFunc :=
  fun c =>
    match gin.ShouldBind c with
    | None =>
        ret (gin.JSON c http.StatusBadRequest (gin.ErrorResponse gin.BadFormData))
    | Some form =>
        let apiClient := client.NewAPIClient (Config appCtx) in
        r <- client.GetUser apiClient (models.User.Username form) ;;
        match r with
        | inl _ =>
            ret (gin.JSON c http.StatusUnauthorized
                          (gin.ErrorResponse gin.WrongUsernameOrPassword))
        | inr user =>
            if negb (utils.VerifyPassword (models.User.Password form)
                                          (models.UserData.Password user))
            then ret (gin.JSON c http.StatusUnauthorized
                               (gin.ErrorResponse gin.WrongUsernameOrPassword))
            else
              t <- createToken appCtx (models.UserData.Login user)
                                      (models.UserData.AgencyID user) ;;
              match t with
              | inl _ =>
                  ret (gin.JSON c http.StatusBadRequest
                                (gin.ErrorResponse gin.TokenCreationFailed))
              | inr token =>
                  e <- client.UpdateToken apiClient (models.User.Username form) token ;;
                  match e with
                  | Some _ =>
                      ret (gin.JSON c http.StatusBadRequest
                                    (gin.ErrorResponse gin.TokenUpdateFailed))
                  | None =>
                      ret (gin.JSON c http.StatusOK (gin.TokenResponse token "bearer"))
                  end
              end
        end
    end.

Definition VerifyToken (appCtx : AppContext) : gin.HandlerFunc :=
  fun c =>
    let username := gin.GetString c "username" in
    let agencyID := gin.GetInt c "agencyID" in
    ret (gin.JSON c http.StatusOK (gin.TokenVerifyResponse true username agencyID)).

Definition RefreshToken (appCtx : AppContext) : gin.HandlerFunc :=
  fun c =>
    let username := gin.GetString c "username" in
    let agencyID := gin.GetInt c "agencyID" in
    t <- createToken appCtx username agencyID ;;
    match t with
    | inl _ =>
        ret (gin.JSON c http.StatusBadRequest (gin.ErrorResponse gin.TokenCreationFailed))
    | inr newToken =>
        let apiClient := client.NewAPIClient (Config appCtx) in
        e <- client.UpdateToken apiClient username newToken ;;
        match e with
        | Some _ =>
            ret (gin.JSON c http.StatusBadRequest (gin.ErrorResponse gin.TokenUpdateFailed))
        | None =>
            ret (gin.JSON c http.StatusOK (gin.TokenResponse newToken "bearer"))
        end
    end.

Definition Logout (appCtx : AppContext) : gin.HandlerFunc :=
  fun c =>
    let username := gin.GetString c "username" in
    let token := gin.GetString c "token" in
    let apiClient := client.NewAPIClient (Config appCtx) in
    e <- client.DeleteToken apiClient username token ;;
    match e with
    | Some _ =>
        ret (gin.JSON c http.StatusInternalServerError
                      (gin.ErrorResponse gin.TokenDeleteFailed))
    | None => ret (gin.JSON c http.StatusOK (gin.Message gin.LoggedOut))
    end.

End WithLibraries.

End handlers.

(** ** Package [middleware] *)

Module middleware.

(** The token that the gate takes from a non-empty Authorization
    header (lines 25 to 30 of [AuthMiddleware]). *)
Definition bearerToken (authHeader : string) : string :=
  if strings.HasPrefix (strings.ToLower authHeader) "bearer "
  then strings.TrimPrefix (strings.ToLower authHeader) "bearer "
  else authHeader.

Section WithLibraries.

Context `{JWT : jwt.Library handlers.Claims} `{BC : bcrypt.Library}.

(** [next] is the rest of the handler chain, which [c.Next()] runs.
    The debug line logs [token[:10]] before the token is checked. *)
Definition AuthMiddleware (appCtx : handlers.AppContext) (next : gin.HandlerFunc)
  : gin.HandlerFunc :=
  fun c =>
    let authHeader := gin.Authorization c in
    if String.eqb authHeader EmptyString
    then ret (gin.Abort (gin.JSON c http.StatusUnauthorized
                                  (gin.H_error gin.NoAuthorizationHeader)))
    else
      let token := bearerToken authHeader in
      match strings.slice_to token 10 with
      | None => panic
      | Some _ =>
          r <- handlers.ValidateToken appCtx token ;;
          match r with
          | inl err =>
              ret (gin.Abort (gin.JSON c http.StatusUnauthorized
                                       (gin.H_error (gin.InvalidToken err))))
          | inr claims =>
              let c := gin.Set_ c "username" (gin.Str (handlers.Username claims)) in
              let c := gin.Set_ c "agencyID" (gin.Int (handlers.AgencyID claims)) in
              let c := gin.Set_ c "token" (gin.Str token) in
              next c
          end
      end.

End WithLibraries.

End middleware.

(** ** Package [encoding/hex] *)

Module hex.

(** The digit table "0123456789abcdef". *)
Definition hextable (n : N) : ascii :=
  if (n <? 10)%N then ascii_of_N (48 + n) else ascii_of_N (87 + n).

Fixpoint EncodeToString (src : string) : string :=
  match src with
  | EmptyString => EmptyString
  | String c r =>
      let n := N_of_ascii c in
      String (hextable (n / 16)) (String (hextable (n mod 16)) (EncodeToString r))
  end.

(** [fromHexChar]: digits and letters of either case. *)
Definition fromHexChar (c : ascii) : option N :=
  let n := N_of_ascii c in
  if ((48 <=? n) && (n <=? 57))%N then Some (n - 48)%N
  else if ((97 <=? n) && (n <=? 102))%N then Some (n - 87)%N
  else if ((65 <=? n) && (n <=? 70))%N then Some (n - 55)%N
  else None.

(** [DecodeString], [None] for an odd length or a byte that is no
    hex digit. *)
Fixpoint DecodeString (s : string) : option string :=
  match s with
  | EmptyString => Some EmptyString
  | String a (String b r) =>
      match fromHexChar a, fromHexChar b, DecodeString r with
      | Some x, Some y, Some t => Some (String (ascii_of_N (16 * x + y)) t)
      | _, _, _ => None
      end
  | String _ EmptyString => None
  end.

Definition lower_hex_digit (c : ascii) : bool :=
  let n := N_of_ascii c in
  ((48 <=? n) && (n <=? 57) || (97 <=? n) && (n <=? 102))%N.

End hex.

(** ** Package [main]: the routes *)

Module main.

(** [random] is what [rand.Read] does to the 32-byte slice: [None]
    for an error, on which the function panics, and else the 32 bytes
    it filled in. *)
Definition generateSecretKey (random : option string) : option string :=
  match random with
  | None => None
  | Some bytes => Some (hex.EncodeToString bytes)
  end.

Section WithLibraries.

Context `{JWT : jwt.Library handlers.Claims} `{BC : bcrypt.Library}.

Definition TokenTTL : Z := time.Hour * 24 * 7.

Definition appCtx (cfg : config.Config) (secretKey : string) : handlers.AppContext :=
  handlers.mkAppContext cfg secretKey "HS256" TokenTTL.

Definition route_login (a : handlers.AppContext) : gin.HandlerFunc :=
  handlers.Login a.
Definition route_token_create (a : handlers.AppContext) : gin.HandlerFunc :=
  handlers.CreateToken a.
Definition route_token_verify (a : handlers.AppContext) : gin.HandlerFunc :=
  middleware.AuthMiddleware a (handlers.VerifyToken a).
Definition route_token_refresh (a : handlers.AppContext) : gin.HandlerFunc :=
  middleware.AuthMiddleware a (handlers.RefreshToken a).
Definition route_logout (a : handlers.AppContext) : gin.HandlerFunc :=
  middleware.AuthMiddleware a (handlers.Logout a).

End WithLibraries.

End main.

(** ** Vocabulary of the statements *)

Module token.

(** A segment without a dot. *)
Definition nodot (s : string) : Prop := strings.Split s "."%char = [s].

Section WithLibraries.

Context `{JWT : jwt.Library handlers.Claims} `{BC : bcrypt.Library}.

(** What the service needs of the encoders for one token: the three
    segments have no dot in them and decode to what they were made
    from, and the token is at least ten bytes long. *)
Definition faithful (alg : string) (claims : handlers.Claims) (key : string) : Prop :=
  let h := jwt.EncodeHeader alg in
  let p := jwt.EncodeClaims claims in
  nodot h /\ nodot p /\
  jwt.DecodeHeader h = Some (Some alg) /\
  jwt.DecodeClaims p = Some claims /\
  forall sig, jwt.Sign alg (h +:+ "." +:+ p) key = Some sig ->
    nodot (jwt.EncodeSegment sig) /\
    jwt.DecodeSegment (jwt.EncodeSegment sig) = Some sig /\
    (10 <= String.length ((h +:+ "." +:+ p) +:+ "." +:+ jwt.EncodeSegment sig))%nat.

(** Structure and signature pass: the string is long enough to be
    logged, it has three segments that decode, it names the configured
    method, and its signature is the tag of the process secret.  The
    result is the claims it carries. *)
Definition verified (ctx : handlers.AppContext) (tokenString : string)
  : option handlers.Claims :=
  if (10 <=? String.length tokenString)%nat then
    match jwt.ParseUnverified tokenString with
    | inr (alg, claims, text, s) =>
        match jwt.DecodeSegment s with
        | Some sig =>
            if String.eqb alg (handlers.Algorithm ctx)
               && jwt.Verify alg text sig (handlers.SecretKey ctx)
            then Some claims else None
        | None => None
        end
    | inl _ => None
    end
  else None.

(** The algorithm that the header of a three-segment token declares. *)
Definition declaredAlg (tokenString : string) : option string :=
  match strings.Split tokenString "."%char with
  | [h; _; _] =>
      match jwt.DecodeHeader h with
      | Some (Some alg) => Some alg
      | _ => None
      end
  | _ => None
  end.

(** The signature segment is the tag of [key] under [alg]. *)
Definition signedWith (alg key tokenString : string) : bool :=
  match strings.Split tokenString "."%char with
  | [h; p; s] =>
      match jwt.DecodeSegment s with
      | Some sig => jwt.Verify alg (h +:+ "." +:+ p) sig key
      | None => false
      end
  | _ => false
  end.

(** What a 200 answer of an issuing handler stands for: the request
    binds to credentials, the store holds a record under the identity
    they name, the password matches its hash, [tok] is what
    [SignedString] makes of the record's login and tenant at the two
    readings of the clock, and the store was asked for the record and
    then told to file [tok] under the identity of the request. *)
Definition issued (ctx : handlers.AppContext) (c : gin.Context) (w w1 : World)
    (tok : string) : Prop :=
  exists creds rec,
    gin.ShouldBind c = Some creds /\
    db w !! models.User.Username creds = Some rec /\
    models.UserData.Login rec <> EmptyString /\
    utils.VerifyPassword (models.User.Password creds) (models.UserData.Password rec) = true /\
    jwt.GetSigningMethod (handlers.Algorithm ctx) = true /\
    jwt.SignedString (handlers.Algorithm ctx)
      (handlers.newClaims (models.UserData.Login rec) (models.UserData.AgencyID rec)
         (now w + handlers.TokenTTL ctx) (now (time.advance w)))
      (handlers.SecretKey ctx) = Some tok /\
    db w1 = <[models.User.Username creds := http.set_token rec tok]> (db w) /\
    calls w1
    = TokenUpdate (models.LocalAPIRequest.mk (config.ServiceName (handlers.Config ctx))
                                             (models.User.Username creds) tok)
      :: GetUserData (config.ServiceName (handlers.Config ctx))
                     (models.User.Username creds)
      :: calls w.

End WithLibraries.

(** Not three dot-separated segments. *)
Definition garbled (tokenString : string) : Prop :=
  length (strings.Split tokenString "."%char) <> 3%nat.

(** The two errors that report an expired token: the library's, as
    [ValidateToken] wraps it, and the handler's own. *)
Definition expiredError (e : error) : Prop :=
  e = ErrTokenExpired \/
  exists early, e = ErrInvalidToken (ErrJWT (jwt.ErrTokenInvalidClaims true early)).

(** The next HTTP exchange reaches the store and comes back intact. *)
Definition healthy (w : World) : Prop :=
  match net w with
  | [] | Healthy :: _ => True
  | _ => False
  end.

(** The world after one healthy exchange that left the store as it was. *)
Definition asked (r : Request) (w : World) : World :=
  mkWorld (db w) (now w) (later w) (tl (net w)) (r :: calls w).

End token.

(** ** An executable instance of the libraries

    A small stand-in for the two libraries, so that the service can be
    run on concrete requests: segments are hex instead of base64url,
    claims are a comma-separated line instead of JSON, and the tag of
    the HS methods is the method, the key and the text spelled out. *)

Module sample.

Definition hex_digit (n : N) : ascii :=
  if (n <? 10)%N then ascii_of_N (48 + n) else ascii_of_N (87 + n).

Definition hex_value (c : ascii) : option N :=
  let n := N_of_ascii c in
  if ((48 <=? n) && (n <=? 57))%N then Some (n - 48)%N
  else if ((97 <=? n) && (n <=? 102))%N then Some (n - 87)%N
  else None.

Fixpoint hex (s : string) : string :=
  match s with
  | EmptyString => EmptyString
  | String c r =>
      let n := N_of_ascii c in
      String (hex_digit (n / 16)) (String (hex_digit (n mod 16)) (hex r))
  end.

Fixpoint unhex (s : string) : option string :=
  match s with
  | EmptyString => Some EmptyString
  | String a (String b r) =>
      match hex_value a, hex_value b, unhex r with
      | Some x, Some y, Some t => Some (String (ascii_of_N (16 * x + y)) t)
      | _, _, _ => None
      end
  | String _ EmptyString => None
  end.

Definition print_Z (z : Z) : string := NilZero.string_of_int (Z.to_int z).

Definition parse_Z (s : string) : option Z :=
  match NilZero.int_of_string s with
  | Some d => Some (Z.of_int d)
  | None => None
  end.

Definition print_date (d : option Z) : string :=
  match d with
  | Some z => print_Z z
  | None => "null"
  end.

Definition parse_date (s : string) : option (option Z) :=
  if String.eqb s "null" then Some None
  else match parse_Z s with
       | Some z => Some (Some z)
       | None => None
       end.

Definition print_claims (c : handlers.Claims) : string :=
  hex (handlers.Username c) +:+ "," +:+ print_Z (handlers.AgencyID c)
  +:+ "," +:+ print_date (jwt.ExpiresAt (handlers.Registered c))
  +:+ "," +:+ print_date (jwt.NotBefore (handlers.Registered c))
  +:+ "," +:+ print_date (jwt.IssuedAt (handlers.Registered c)).

Definition parse_claims (s : string) : option handlers.Claims :=
  match strings.Split s ","%char with
  | [u; a; e; n; i] =>
      match unhex u, parse_Z a, parse_date e, parse_date n, parse_date i with
      | Some u, Some a, Some e, Some n, Some i =>
          Some (handlers.mkClaims u a (jwt.mkRegisteredClaims e n i))
      | _, _, _, _, _ => None
      end
  | _ => None
  end.

Definition is_HS (alg : string) : bool :=
  String.eqb alg "HS256" || String.eqb alg "HS384" || String.eqb alg "HS512".

Definition JWT : jwt.Library handlers.Claims := {|
  jwt.GetSigningMethod alg := is_HS alg || String.eqb alg "none";
  jwt.Sign alg text key :=
    if is_HS alg then Some (alg +:+ ":" +:+ key +:+ ":" +:+ text) else None;
  jwt.EncodeHeader alg := hex ("alg=" +:+ alg);
  jwt.DecodeHeader s :=
    match unhex s with
    | Some h =>
        if strings.HasPrefix h "alg=" then Some (Some (strings.TrimPrefix h "alg="))
        else Some None
    | None => None
    end;
  jwt.EncodeClaims c := hex (print_claims c);
  jwt.DecodeClaims s :=
    match unhex s with
    | Some t => parse_claims t
    | None => None
    end;
  jwt.EncodeSegment := hex;
  jwt.DecodeSegment := unhex
|}.

Definition BC : bcrypt.Library := {|
  bcrypt.CompareHashAndPassword hashed plain := String.eqb hashed ("hash:" +:+ plain)
|}.

Definition cfg : config.Config := config.mkConfig "auth" 8080 "info" "http://web:8000".

Definition ctx : handlers.AppContext := main.appCtx cfg "5ec2e7".

Definition alice : models.UserData.t := models.UserData.mk "alice" "hash:pw1" 7 EmptyString.

(** A record with a negative tenant id, a record without a login, and
    a record whose login is not the identity it is filed under. *)
Definition bob : models.UserData.t := models.UserData.mk "bob" "hash:pw2" (-1) EmptyString.
Definition carol : models.UserData.t := models.UserData.mk EmptyString "hash:pw3" 3 EmptyString.
Definition dave : models.UserData.t := models.UserData.mk "Dave" "hash:pw4" 4 EmptyString.

Definition store : gmap string models.UserData.t :=
  {[ "alice" := alice; "bob" := bob; "carol" := carol; "dave" := dave ]}.

(** The store above, a clock standing at [t], no network trouble. *)
Definition world (t : Z) : World := mkWorld store t [] [] [].

(** The same world at another hour. *)
Definition at_time (t : Z) (w : World) : World :=
  mkWorld (db w) t [] (net w) (calls w).

Definition after {A} (o : Outcome A) : World :=
  match o with
  | Done _ w => w
  | Panicked w => w
  end.

Definition reply (o : Outcome gin.Context) : gin.Context :=
  match o with
  | Done c _ => c
  | Panicked _ => gin.request EmptyString None
  end.

Definition response (o : Outcome gin.Context) : option (Z * gin.Body) :=
  match o with
  | Done c _ => gin.Written c
  | Panicked _ => None
  end.

Definition access_token (o : Outcome gin.Context) : string :=
  match response o with
  | Some (_, gin.TokenResponse t _) => t
  | _ => EmptyString
  end.

Definition credentials (username password : string) : gin.Context :=
  gin.request EmptyString (Some (models.User.mk username password)).

(** Ten o'clock, so to speak, with a fraction of a second on top; and
    the whole second that a token issued then expires at. *)
Definition t0 : Z := 1700000000123456789.
Definition exp0 : Z := 1700604800000000000.

(** Alice logs in at [t0]. *)
Definition login : Outcome gin.Context :=
  @handlers.Login JWT BC ctx (credentials "alice" "pw1") (world t0).

Definition tok : string := access_token login.

Definition claims0 : handlers.Claims :=
  handlers.newClaims "alice" 7 (t0 + handlers.TokenTTL ctx) t0.

(** She presents the token, as the whole Authorization header, to the
    logout route; in another run to the refresh route five seconds
    after the login; and in a third to the refresh route 300 ms after
    the login, which is within the same second. *)
Definition presented : gin.Context := gin.request tok None.

Definition logout : Outcome gin.Context :=
  @main.route_logout JWT ctx presented (after login).

Definition refresh_later : Outcome gin.Context :=
  @main.route_token_refresh JWT ctx presented
    (at_time (t0 + 5 * time.Second) (after login)).

Definition refresh_at_once : Outcome gin.Context :=
  @main.route_token_refresh JWT ctx presented
    (at_time (t0 + 300000000) (after login)).

(** After the logout she logs in again, 300 ms after her first login. *)
Definition relogin : Outcome gin.Context :=
  @handlers.Login JWT BC ctx (credentials "alice" "pw1")
    (at_time (t0 + 300000000) (after logout)).

(** Dave, whose record spells his login with a capital, asks the token
    route for a token at [t0]. *)
Definition create_dave : Outcome gin.Context :=
  @handlers.CreateToken JWT BC ctx (credentials "dave" "pw4") (world t0).

(** Bob logs in at [t0]. *)
Definition login_bob : Outcome gin.Context :=
  @handlers.Login JWT BC ctx (credentials "bob" "pw2") (world t0).

(** A token made with another method, one made with another secret,
    and one for the identity carol. *)
Definition forge (alg key : string) (claims : handlers.Claims) : string :=
  match @jwt.SignedString _ JWT alg claims key with
  | Some t => t
  | None => EmptyString
  end.

Definition tok_HS384 : string := forge "HS384" (handlers.SecretKey ctx) claims0.
Definition tok_other_key : string := forge "HS256" "0ddba11" claims0.
Definition tok_carol : string :=
  forge "HS256" (handlers.SecretKey ctx)
        (handlers.newClaims "carol" 3 (t0 + handlers.TokenTTL ctx) t0).

End sample.

(** ** More requests for the sample store *)

Module scenario.

(** A configuration file that sets the service name and nothing else. *)
Definition files (path : string) : option (option config.Config) :=
  if String.eqb path "config.json"
  then Some (Some (config.mkConfig "auth" 0 EmptyString EmptyString))
  else None.

(** Tokens under the process secret whose claims lack the expiry, the
    identity, or a tenant that is not negative. *)
Definition no_exp : handlers.Claims :=
  handlers.mkClaims "alice" 7 (jwt.mkRegisteredClaims None None None).

Definition anonymous : handlers.Claims :=
  handlers.newClaims EmptyString 7 (sample.t0 + handlers.TokenTTL sample.ctx) sample.t0.

Definition negative : handlers.Claims :=
  handlers.newClaims "alice" (-1) (sample.t0 + handlers.TokenTTL sample.ctx) sample.t0.

Definition tok_no_exp : string :=
  sample.forge "HS256" (handlers.SecretKey sample.ctx) no_exp.
Definition tok_anonymous : string :=
  sample.forge "HS256" (handlers.SecretKey sample.ctx) anonymous.
Definition tok_negative : string :=
  sample.forge "HS256" (handlers.SecretKey sample.ctx) negative.

(** The same world with the store out of reach for the next exchange. *)
Definition unreachable (w : World) : World :=
  mkWorld (db w) (now w) (later w) [Unreachable] (calls w).

(** Alice's token issued by [createToken] alone. *)
Definition minted : Outcome (error + string) :=
  @handlers.createToken sample.JWT sample.ctx "alice" 7 (sample.world sample.t0).

Definition verify : Outcome gin.Context :=
  @main.route_token_verify sample.JWT sample.ctx sample.presented
    (sample.after sample.login).

(** The same world with the answer of the second exchange from now
    getting lost on its way back. *)
Definition second_answer_lost (w : World) : World :=
  mkWorld (db w) (now w) (later w) [Healthy; Lost] (calls w).

Definition login_unanswered : Outcome gin.Context :=
  @handlers.Login sample.JWT sample.BC sample.ctx (sample.credentials "alice" "pw1")
    (second_answer_lost (sample.world sample.t0)).

Definition logout_unanswered : Outcome gin.Context :=
  @main.route_logout sample.JWT sample.ctx sample.presented
    (second_answer_lost (sample.after sample.login)).

(** Alice's credentials as a JSON body sent as application/json, and as
    a form-encoded body, which is no JSON. *)
Definition as_json : gin.Incoming :=
  gin.mkIncoming true (Some (models.User.mk "alice" "pw1")) None.

Definition as_form : gin.Incoming :=
  gin.mkIncoming false None (Some (models.User.mk "alice" "pw1")).

End scenario.

(** * Facts about the service *)

(** ** Strings *)

Lemma length_append (a b : string) :
  String.length (a +:+ b) = (String.length a + String.length b)%nat.
Proof. induction a as [|c a IH]; simpl; [reflexivity | now rewrite IH]. Qed.

Lemma ToLower_append (a b : string) :
  strings.ToLower (a +:+ b) = strings.ToLower a +:+ strings.ToLower b.
Proof. induction a as [|c a IH]; simpl; [reflexivity | now rewrite IH]. Qed.

Lemma prefix_append (p s : string) : String.prefix p (p +:+ s) = true.
Proof.
  induction p as [|c p IH]; simpl; [now destruct s|].
  destruct (ascii_dec c c) as [_|ne]; [exact IH | now destruct ne].
Qed.

Lemma substring_all (s : string) : String.substring 0 (String.length s) s = s.
Proof. induction s as [|c s IH]; simpl; [reflexivity | now rewrite IH]. Qed.

Lemma substring_skip (p s : string) (n : nat) :
  String.substring (String.length p) n (p +:+ s) = String.substring 0 n s.
Proof. induction p as [|c p IH]; simpl; [reflexivity | exact IH]. Qed.

Lemma TrimPrefix_append (p s : string) : strings.TrimPrefix (p +:+ s) p = s.
Proof.
  unfold strings.TrimPrefix, strings.HasPrefix.
  rewrite prefix_append, length_append, substring_skip.
  replace (String.length p + String.length s - String.length p)%nat
    with (String.length s) by lia.
  apply substring_all.
Qed.

(** Splitting after a first segment that has no separator in it. *)
Lemma Split_first (a r : string) :
  token.nodot a ->
  strings.Split (a +:+ String "."%char r) "."%char = a :: strings.Split r "."%char.
Proof.
  unfold token.nodot.
  induction a as [|c a IH]; simpl; intros H.
  - reflexivity.
  - destruct (Ascii.eqb c "."%char); [discriminate|].
    destruct (strings.Split a "."%char) as [|x xs] eqn:E.
    + destruct a; simpl in E; [discriminate|].
      destruct (Ascii.eqb a "."%char); [discriminate|].
      destruct (strings.Split a0 "."%char); discriminate.
    + injection H as -> ->.
      now rewrite IH.
Qed.

Lemma Split_signed (h p s : string) :
  token.nodot h -> token.nodot p -> token.nodot s ->
  strings.Split (h +:+ "." +:+ p +:+ "." +:+ s) "."%char = [h; p; s].
Proof.
  intros Hh Hp Hs.
  change (h +:+ "." +:+ p +:+ "." +:+ s)
    with (h +:+ String "."%char (p +:+ String "."%char s)).
  rewrite (Split_first h _ Hh), (Split_first p _ Hp).
  now rewrite Hs.
Qed.

Lemma slice_to_short (s : string) (n : nat) :
  (String.length s < n)%nat -> strings.slice_to s n = None.
Proof.
  intros H. unfold strings.slice_to.
  destruct (Nat.leb_spec n (String.length s)); [lia | reflexivity].
Qed.

Lemma slice_to_long (s : string) (n : nat) :
  (n <= String.length s)%nat -> exists x, strings.slice_to s n = Some x.
Proof.
  intros H. unfold strings.slice_to.
  destruct (Nat.leb_spec n (String.length s)); [eauto | lia].
Qed.

(** A header that starts with "Bearer " in any letter case yields the
    lower-cased rest, not the rest itself. *)
Lemma bearerToken_prefixed (p t : string) :
  strings.ToLower p = "bearer " ->
  middleware.bearerToken (p +:+ t) = strings.ToLower t.
Proof.
  intros Hp. unfold middleware.bearerToken.
  rewrite ToLower_append, Hp.
  unfold strings.HasPrefix. rewrite prefix_append.
  apply TrimPrefix_append.
Qed.

(** Without the prefix the header is the token. *)
Lemma bearerToken_plain (h : string) :
  strings.HasPrefix (strings.ToLower h) "bearer " = false ->
  middleware.bearerToken h = h.
Proof. intros H. unfold middleware.bearerToken. now rewrite H. Qed.

(** ** The request gate and the validate path *)

Section Gateway.

Context `{JWT : jwt.Library handlers.Claims} `{BC : bcrypt.Library}.

Implicit Types (ctx : handlers.AppContext) (w : World) (c : gin.Context).

Lemma parseAndValidateToken_short ctx tokenString w :
  (String.length tokenString < 10)%nat ->
  handlers.parseAndValidateToken ctx tokenString w = Panicked w.
Proof.
  intros H. unfold handlers.parseAndValidateToken.
  now rewrite (slice_to_short _ _ H).
Qed.

Lemma ValidateToken_short ctx tokenString w :
  (String.length tokenString < 10)%nat ->
  handlers.ValidateToken ctx tokenString w = Panicked w.
Proof.
  intros Hlen. unfold handlers.ValidateToken, bind.
  now rewrite (parseAndValidateToken_short _ _ _ Hlen).
Qed.

(** C8.  A token string of fewer than ten bytes makes [ValidateToken]
    panic on the slice [tokenString[:10]] of its first log line, before
    anything is checked and with the world untouched; it returns no
    error value.  The gate panics in the same way on [token[:10]] when
    the token it took from a non-empty header is that short; the header
    is taken to be ASCII, where [strings.ToLower] above is Go's. *)
Theorem short_token_panics ctx next c w tokenString :
  (String.length tokenString < 10)%nat ->
  handlers.ValidateToken ctx tokenString w = Panicked w /\
  (gin.Authorization c <> EmptyString ->
   strings.is_ascii (gin.Authorization c) ->
   middleware.bearerToken (gin.Authorization c) = tokenString ->
   middleware.AuthMiddleware ctx next c w = Panicked w).
Proof.
  intros Hlen. split.
  - now apply ValidateToken_short.
  - intros Hne _ Htok. unfold middleware.AuthMiddleware.
    destruct (String.eqb_spec (gin.Authorization c) EmptyString) as [E|_]; [contradiction|].
    rewrite Htok. now rewrite (slice_to_short _ _ Hlen).
Qed.

(** A garbled string that is long enough to be logged is turned down as
    malformed, and the store is not asked. *)
Lemma garbled_long_is_malformed ctx tokenString w :
  token.garbled tokenString ->
  (10 <= String.length tokenString)%nat ->
  handlers.ValidateToken ctx tokenString w
  = Done (inl (ErrInvalidToken (ErrJWT jwt.ErrTokenMalformed))) w.
Proof.
  intros Hg Hlen.
  unfold handlers.ValidateToken, handlers.parseAndValidateToken, bind.
  destruct (slice_to_long _ _ Hlen) as [x ->].
  unfold jwt.ParseWithClaims, jwt.ParseUnverified.
  unfold token.garbled in Hg.
  destruct (strings.Split tokenString ".") as [|h [|p [|s [|x' l]]]]; simpl in Hg;
    try reflexivity.
  now destruct Hg.
Qed.

(** C7.  The string "garbage" is garbled, being one segment, yet
    [ValidateToken] does not fail with a malformed-token error on it:
    it panics on [tokenString[:10]].  The store is not asked. *)
Theorem garbled_short_input_panics ctx w :
  token.garbled "garbage" /\
  handlers.ValidateToken ctx "garbage" w = Panicked w.
Proof.
  split.
  - unfold token.garbled. simpl. lia.
  - apply ValidateToken_short. simpl. lia.
Qed.

(** C1.  On the header "Bearer AbCdEfGhIjKl" the gate does not hand
    "AbCdEfGhIjKl" to [ValidateToken] but its lower-cased copy, and
    the lower-cased copy is what it binds under "token". *)
Theorem gate_lowers_bearer_token ctx next creds w :
  middleware.bearerToken "Bearer AbCdEfGhIjKl" = "abcdefghijkl" /\
  middleware.AuthMiddleware ctx next (gin.request "Bearer AbCdEfGhIjKl" creds) w
  = match handlers.ValidateToken ctx "abcdefghijkl" w with
    | Done (inl err) w' =>
        Done (gin.Abort (gin.JSON (gin.request "Bearer AbCdEfGhIjKl" creds)
                                  http.StatusUnauthorized
                                  (gin.H_error (gin.InvalidToken err)))) w'
    | Done (inr claims) w' =>
        next (gin.mkContext "Bearer AbCdEfGhIjKl" creds
                {[ "username" := gin.Str (handlers.Username claims);
                   "agencyID" := gin.Int (handlers.AgencyID claims);
                   "token" := gin.Str "abcdefghijkl" ]}
                false None) w'
    | Panicked w' => Panicked w'
    end.
Proof.
  split; [reflexivity|].
  unfold middleware.AuthMiddleware, bind.
  change (middleware.bearerToken (gin.Authorization (gin.request "Bearer AbCdEfGhIjKl" creds)))
    with "abcdefghijkl".
  cbn [gin.Authorization gin.request String.eqb Ascii.eqb Bool.eqb].
  cbn [strings.slice_to String.length Nat.leb].
  destruct (handlers.ValidateToken ctx "abcdefghijkl" w) as [[err|claims] w'|w'];
    reflexivity.
Qed.

(** *** The clock and the store, one step at a time *)

Lemma db_advance w : db (time.advance w) = db w.
Proof. unfold time.advance. now destruct (later w). Qed.

Lemma net_advance w : net (time.advance w) = net w.
Proof. unfold time.advance. now destruct (later w). Qed.

Lemma calls_advance w : calls (time.advance w) = calls w.
Proof. unfold time.advance. now destruct (later w). Qed.

Lemma healthy_advance w : token.healthy w -> token.healthy (time.advance w).
Proof. unfold token.healthy. now rewrite net_advance. Qed.

Lemma Validate_run (claims : handlers.Claims) w :
  jwt.Validate claims w
  = Done (if negb (jwt.verifyExpiresAt claims (now w))
             || negb (jwt.verifyNotBefore claims (now w))
          then Some (jwt.ErrTokenInvalidClaims
                       (negb (jwt.verifyExpiresAt claims (now w)))
                       (negb (jwt.verifyNotBefore claims (now w))))
          else None)
         (time.advance w).
Proof.
  unfold jwt.Validate, bind, time.Now.
  now destruct (negb (jwt.verifyExpiresAt claims (now w))
                || negb (jwt.verifyNotBefore claims (now w))).
Qed.

(** A healthy lookup of an identity that is on file. *)
Lemma Do_GetUserData service username w rec :
  token.healthy w ->
  db w !! username = Some rec ->
  http.Do (GetUserData service username) w
  = Done (http.Response http.StatusOK (Some rec))
         (token.asked (GetUserData service username) w).
Proof.
  unfold token.healthy, http.Do, token.asked. intros Hn Hdb.
  destruct (net w) as [|[| | | |] n]; try contradiction; simpl; now rewrite Hdb.
Qed.

Lemma GetUser_found cl username w rec :
  token.healthy w ->
  db w !! username = Some rec ->
  models.UserData.Login rec <> EmptyString ->
  client.GetUser cl username w
  = Done (inr rec) (token.asked (GetUserData (client.ServiceName cl) username) w).
Proof.
  intros Hn Hdb Hl. unfold client.GetUser, bind.
  rewrite (Do_GetUserData _ _ _ _ Hn Hdb). simpl.
  destruct (String.eqb_spec (models.UserData.Login rec) EmptyString); [contradiction | reflexivity].
Qed.

Lemma GetUser_empty_login cl username w rec :
  token.healthy w ->
  db w !! username = Some rec ->
  models.UserData.Login rec = EmptyString ->
  client.GetUser cl username w
  = Done (inl ErrUserNotFound) (token.asked (GetUserData (client.ServiceName cl) username) w).
Proof.
  intros Hn Hdb Hl. unfold client.GetUser, bind.
  rewrite (Do_GetUserData _ _ _ _ Hn Hdb). simpl.
  now rewrite Hl.
Qed.

(** What a successful lookup tells about the store. *)
Lemma Do_GetUserData_inv service username w st data w' :
  http.Do (GetUserData service username) w = Done (http.Response st (Some data)) w' ->
  st = http.StatusOK /\ db w !! username = Some data /\ token.healthy w /\
  w' = token.asked (GetUserData service username) w.
Proof.
  unfold http.Do, token.healthy, token.asked. intros H.
  destruct (net w) as [|[| | | |] n]; simpl in H;
    try discriminate;
    destruct (db w !! username) as [rec|] eqn:E; try discriminate;
    injection H as <- <- <-; repeat split; trivial.
Qed.

Lemma GetUser_inv cl username w user w' :
  client.GetUser cl username w = Done (inr user) w' ->
  db w !! username = Some user /\ models.UserData.Login user <> EmptyString /\
  token.healthy w /\
  w' = token.asked (GetUserData (client.ServiceName cl) username) w.
Proof.
  unfold client.GetUser, bind. intros H.
  destruct (http.Do (GetUserData (client.ServiceName cl) username) w)
    as [[|st body] w1|w1] eqn:E; try discriminate.
  destruct (negb (st =? http.StatusOK)); [discriminate|].
  destruct body as [data|]; [|discriminate].
  destruct (String.eqb_spec (models.UserData.Login data) EmptyString); [discriminate|].
  injection H as <- <-.
  apply Do_GetUserData_inv in E as (_ & Hdb & Hn & ->). auto.
Qed.

(** [GetUser] never panics and sends exactly one request. *)
Lemma GetUser_done cl username w :
  exists r w', client.GetUser cl username w = Done r w' /\
               calls w' = GetUserData (client.ServiceName cl) username :: calls w /\
               now w' = now w /\ later w' = later w.
Proof.
  unfold client.GetUser, bind, http.Do.
  destruct (net w) as [|[| | | |] n]; simpl;
    try destruct (db w !! username) as [rec|]; simpl;
    try destruct (negb (status =? http.StatusOK));
    try destruct (String.eqb (models.UserData.Login rec) EmptyString);
    eauto 10.
Qed.

(** *** Parsing *)

(** A token whose structure and signature pass is decided by the
    validator alone, at the first reading of the clock. *)
Lemma parse_verified ctx tokenString claims w :
  token.verified ctx tokenString = Some claims ->
  handlers.parseAndValidateToken ctx tokenString w
  = Done (if negb (jwt.verifyExpiresAt claims (now w))
             || negb (jwt.verifyNotBefore claims (now w))
          then inl (ErrJWT (jwt.ErrTokenInvalidClaims
                              (negb (jwt.verifyExpiresAt claims (now w)))
                              (negb (jwt.verifyNotBefore claims (now w)))))
          else inr claims)
         (time.advance w).
Proof.
  unfold token.verified, handlers.parseAndValidateToken, strings.slice_to.
  destruct (10 <=? String.length tokenString)%nat; [|discriminate].
  unfold jwt.ParseWithClaims, bind.
  destruct (jwt.ParseUnverified tokenString) as [e|[[[alg cl] text] s]]; [discriminate|].
  destruct (jwt.DecodeSegment s) as [sig|]; [|discriminate].
  unfold handlers.keyFunc.
  destruct (String.eqb_spec alg (handlers.Algorithm ctx)) as [->|]; [|discriminate].
  simpl.
  destruct (jwt.Verify (handlers.Algorithm ctx) text sig (handlers.SecretKey ctx));
    [|discriminate].
  intros [= ->]. rewrite Validate_run.
  now destruct (negb (jwt.verifyExpiresAt claims (now w))
                || negb (jwt.verifyNotBefore claims (now w))).
Qed.

(** Any other string of ten bytes or more is turned down by the parser
    before the clock is read. *)
Lemma parse_unverified ctx tokenString w :
  (10 <= String.length tokenString)%nat ->
  token.verified ctx tokenString = None ->
  exists e, handlers.parseAndValidateToken ctx tokenString w = Done (inl (ErrJWT e)) w.
Proof.
  unfold token.verified, handlers.parseAndValidateToken, strings.slice_to.
  intros Hlen. apply Nat.leb_le in Hlen. rewrite Hlen.
  unfold jwt.ParseWithClaims, bind.
  destruct (jwt.ParseUnverified tokenString) as [e|[[[alg cl] text] s]]; [eauto|].
  destruct (jwt.DecodeSegment s) as [sig|]; [|eauto].
  unfold handlers.keyFunc.
  destruct (String.eqb_spec alg (handlers.Algorithm ctx)) as [->|]; simpl; [|eauto].
  destruct (jwt.Verify (handlers.Algorithm ctx) text sig (handlers.SecretKey ctx));
    [discriminate | eauto].
Qed.

Lemma parse_inv ctx tokenString w claims w' :
  handlers.parseAndValidateToken ctx tokenString w = Done (inr claims) w' ->
  token.verified ctx tokenString = Some claims /\
  jwt.verifyExpiresAt claims (now w) = true /\
  jwt.verifyNotBefore claims (now w) = true /\
  w' = time.advance w.
Proof.
  intros H.
  destruct (Nat.le_gt_cases 10 (String.length tokenString)) as [Hlen|Hlen].
  - destruct (token.verified ctx tokenString) as [cl|] eqn:V.
    + rewrite (parse_verified _ _ _ w V) in H.
      destruct (jwt.verifyExpiresAt cl (now w)) eqn:E1;
        destruct (jwt.verifyNotBefore cl (now w)) eqn:E2;
        simpl in H; try discriminate.
      injection H as -> <-. repeat split; trivial.
    + destruct (parse_unverified ctx _ w Hlen V) as [e He]. congruence.
  - rewrite parseAndValidateToken_short in H by lia. discriminate.
Qed.

(** *** The whole of [ValidateToken] on a token that parses *)

Lemma ValidateToken_verified ctx tokenString claims w :
  token.verified ctx tokenString = Some claims ->
  handlers.ValidateToken ctx tokenString w
  = if negb (jwt.verifyExpiresAt claims (now w))
       || negb (jwt.verifyNotBefore claims (now w))
    then Done (inl (ErrInvalidToken
                      (ErrJWT (jwt.ErrTokenInvalidClaims
                                 (negb (jwt.verifyExpiresAt claims (now w)))
                                 (negb (jwt.verifyNotBefore claims (now w)))))))
              (time.advance w)
    else if String.eqb (handlers.Username claims) EmptyString
    then Done (inl ErrNoUsername) (time.advance w)
    else if handlers.AgencyID claims <? 0
    then Done (inl ErrNoAgency) (time.advance w)
    else match jwt.ExpiresAt (handlers.Registered claims) with
         | None => Panicked (time.advance (time.advance w))
         | Some exp =>
             if exp <? now (time.advance w)
             then Done (inl ErrTokenExpired) (time.advance (time.advance w))
             else match client.GetUser (client.NewAPIClient (handlers.Config ctx))
                                       (handlers.Username claims)
                                       (time.advance (time.advance w)) with
                  | Done (inl _) w' => Done (inl ErrUserNotFound) w'
                  | Done (inr user) w' =>
                      if negb (String.eqb (models.UserData.JWTToken user) tokenString)
                      then Done (inl ErrTokenMismatch) w'
                      else Done (inr claims) w'
                  | Panicked w' => Panicked w'
                  end
         end.
Proof.
  intros V. unfold handlers.ValidateToken, bind at 1.
  rewrite (parse_verified _ _ _ w V).
  destruct (negb (jwt.verifyExpiresAt claims (now w))
            || negb (jwt.verifyNotBefore claims (now w))); [reflexivity|].
  destruct (String.eqb (handlers.Username claims) EmptyString); [reflexivity|].
  destruct (handlers.AgencyID claims <? 0); [reflexivity|].
  unfold bind, time.Now.
  destruct (jwt.ExpiresAt (handlers.Registered claims)) as [exp|]; [|reflexivity].
  destruct (exp <? now (time.advance w)); [reflexivity|].
  destruct (client.GetUser _ _ _) as [[e|user] w'|w']; try reflexivity.
  now destruct (negb (String.eqb (models.UserData.JWTToken user) tokenString)).
Qed.

(** A token is accepted when it parses, carries an identity and a
    tenant, is inside its validity window at both readings of the
    clock, and is the one on file. *)
Lemma ValidateToken_accepts ctx tokenString claims exp rec w :
  token.verified ctx tokenString = Some claims ->
  jwt.ExpiresAt (handlers.Registered claims) = Some exp ->
  now w < exp -> now (time.advance w) <= exp ->
  jwt.verifyNotBefore claims (now w) = true ->
  handlers.Username claims <> EmptyString -> 0 <= handlers.AgencyID claims ->
  token.healthy w ->
  db w !! handlers.Username claims = Some rec ->
  models.UserData.Login rec <> EmptyString ->
  models.UserData.JWTToken rec = tokenString ->
  handlers.ValidateToken ctx tokenString w
  = Done (inr claims)
         (token.asked (GetUserData (config.ServiceName (handlers.Config ctx))
                                   (handlers.Username claims))
                      (time.advance (time.advance w))).
Proof.
  intros V He H1 H2 Hn Hu Ha Hh Hdb Hl Ht.
  rewrite (ValidateToken_verified _ _ _ w V).
  unfold jwt.verifyExpiresAt; simpl. rewrite He, Hn.
  destruct (Z.ltb_spec (now w) exp); [simpl | lia].
  destruct (String.eqb_spec (handlers.Username claims) EmptyString); [contradiction|].
  destruct (Z.ltb_spec (handlers.AgencyID claims) 0); [lia|].
  destruct (Z.ltb_spec exp (now (time.advance w))); [lia|].
  rewrite (GetUser_found _ _ _ rec); trivial.
  - rewrite Ht, String.eqb_refl. reflexivity.
  - now do 2 apply healthy_advance.
  - now rewrite !db_advance.
Qed.

(** It is turned down as superseded when another string is on file. *)
Lemma ValidateToken_mismatch ctx tokenString claims exp rec w :
  token.verified ctx tokenString = Some claims ->
  jwt.ExpiresAt (handlers.Registered claims) = Some exp ->
  now w < exp -> now (time.advance w) <= exp ->
  jwt.verifyNotBefore claims (now w) = true ->
  handlers.Username claims <> EmptyString -> 0 <= handlers.AgencyID claims ->
  token.healthy w ->
  db w !! handlers.Username claims = Some rec ->
  models.UserData.Login rec <> EmptyString ->
  models.UserData.JWTToken rec <> tokenString ->
  handlers.ValidateToken ctx tokenString w
  = Done (inl ErrTokenMismatch)
         (token.asked (GetUserData (config.ServiceName (handlers.Config ctx))
                                   (handlers.Username claims))
                      (time.advance (time.advance w))).
Proof.
  intros V He H1 H2 Hn Hu Ha Hh Hdb Hl Ht.
  rewrite (ValidateToken_verified _ _ _ w V).
  unfold jwt.verifyExpiresAt; simpl. rewrite He, Hn.
  destruct (Z.ltb_spec (now w) exp); [simpl | lia].
  destruct (String.eqb_spec (handlers.Username claims) EmptyString); [contradiction|].
  destruct (Z.ltb_spec (handlers.AgencyID claims) 0); [lia|].
  destruct (Z.ltb_spec exp (now (time.advance w))); [lia|].
  rewrite (GetUser_found _ _ _ rec); trivial.
  - destruct (String.eqb_spec (models.UserData.JWTToken rec) tokenString);
      [contradiction | reflexivity].
  - now do 2 apply healthy_advance.
  - now rewrite !db_advance.
Qed.

(** What an accepted token tells about the world it was checked in. *)
Lemma ValidateToken_inv ctx tokenString w claims w' :
  handlers.ValidateToken ctx tokenString w = Done (inr claims) w' ->
  token.verified ctx tokenString = Some claims /\
  handlers.Username claims <> EmptyString /\ 0 <= handlers.AgencyID claims /\
  jwt.verifyNotBefore claims (now w) = true /\
  (exists exp, jwt.ExpiresAt (handlers.Registered claims) = Some exp /\
               now w < exp /\ now (time.advance w) <= exp) /\
  (exists rec, db w !! handlers.Username claims = Some rec /\
               models.UserData.Login rec <> EmptyString /\
               models.UserData.JWTToken rec = tokenString) /\
  token.healthy w /\
  w' = token.asked (GetUserData (config.ServiceName (handlers.Config ctx))
                                (handlers.Username claims))
                   (time.advance (time.advance w)).
Proof.
  intros H.
  assert (V : exists cl, token.verified ctx tokenString = Some cl).
  { unfold handlers.ValidateToken, bind in H.
    destruct (handlers.parseAndValidateToken ctx tokenString w)
      as [[e|cl] w1|w1] eqn:P; try discriminate.
    apply parse_inv in P as (V & _). eauto. }
  destruct V as [cl V].
  rewrite (ValidateToken_verified _ _ _ w V) in H.
  unfold jwt.verifyExpiresAt in H; simpl in H.
  destruct (jwt.ExpiresAt (handlers.Registered cl)) as [exp|] eqn:He.
  2:{ destruct (negb (jwt.verifyNotBefore cl (now w))); simpl in H; [discriminate|].
      destruct (String.eqb (handlers.Username cl) EmptyString); [discriminate|].
      destruct (handlers.AgencyID cl <? 0); discriminate. }
  destruct (Z.ltb_spec (now w) exp); simpl in H; [|discriminate].
  destruct (jwt.verifyNotBefore cl (now w)) eqn:Hn; simpl in H; [|discriminate].
  destruct (String.eqb_spec (handlers.Username cl) EmptyString); [discriminate|].
  destruct (Z.ltb_spec (handlers.AgencyID cl) 0); [discriminate|].
  destruct (Z.ltb_spec exp (now (time.advance w))); [discriminate|].
  destruct (client.GetUser _ _ _) as [[e|user] w1|w1] eqn:G; try discriminate.
  destruct (String.eqb_spec (models.UserData.JWTToken user) tokenString);
    simpl in H; [|discriminate].
  injection H as <- <-.
  apply GetUser_inv in G as (Hdb & Hl & Hh & ->).
  rewrite !db_advance in Hdb.
  unfold token.healthy in Hh. rewrite !net_advance in Hh.
  repeat split; eauto 6.
Qed.

(** *** Expiry *)

(** C5.  For a token whose structure and signature pass, the library's
    validator turns it down as expired whenever the clock reads
    [expires-at] or later, and nothing before [expires-at] does: with
    the first reading before [expires-at] the token is accepted, given
    that the claims are well formed and the token is the one on file,
    unless the handler's own second reading has moved past
    [expires-at], which is reported as expired too. *)
Theorem expiry_boundary ctx tokenString claims exp w :
  token.verified ctx tokenString = Some claims ->
  jwt.ExpiresAt (handlers.Registered claims) = Some exp ->
  (exp <= now w ->
   exists e, handlers.ValidateToken ctx tokenString w = Done (inl e) (time.advance w) /\
             token.expiredError e) /\
  (now w < exp ->
   jwt.verifyNotBefore claims (now w) = true ->
   handlers.Username claims <> EmptyString -> 0 <= handlers.AgencyID claims ->
   (exp < now (time.advance w) ->
    handlers.ValidateToken ctx tokenString w
    = Done (inl ErrTokenExpired) (time.advance (time.advance w))) /\
   (now (time.advance w) <= exp ->
    forall rec,
      token.healthy w ->
      db w !! handlers.Username claims = Some rec ->
      models.UserData.Login rec <> EmptyString ->
      models.UserData.JWTToken rec = tokenString ->
      exists w', handlers.ValidateToken ctx tokenString w = Done (inr claims) w')).
Proof.
  intros V He. split.
  - intros Hexp. rewrite (ValidateToken_verified _ _ _ w V).
    unfold jwt.verifyExpiresAt; simpl. rewrite He.
    destruct (Z.ltb_spec (now w) exp); [lia|]. simpl.
    eexists; split; [reflexivity|]. right. eauto.
  - intros Hlt Hn Hu Ha. split.
    + intros Hpast. rewrite (ValidateToken_verified _ _ _ w V).
      unfold jwt.verifyExpiresAt; simpl. rewrite He, Hn.
      destruct (Z.ltb_spec (now w) exp); [simpl | lia].
      destruct (String.eqb_spec (handlers.Username claims) EmptyString); [contradiction|].
      destruct (Z.ltb_spec (handlers.AgencyID claims) 0); [lia|].
      destruct (Z.ltb_spec exp (now (time.advance w))); [reflexivity | lia].
    + intros Hle rec Hh Hdb Hl Ht. eexists.
      now apply (ValidateToken_accepts ctx tokenString claims exp rec w).
Qed.

(** *** Algorithm and secret *)

Lemma foreign_algorithm_unverified ctx tokenString alg :
  token.declaredAlg tokenString = Some alg ->
  alg <> handlers.Algorithm ctx ->
  token.verified ctx tokenString = None.
Proof.
  unfold token.declaredAlg, token.verified, jwt.ParseUnverified.
  intros D Hne.
  destruct (10 <=? String.length tokenString)%nat; [|reflexivity].
  destruct (strings.Split tokenString ".") as [|h [|p [|s [|x l]]]]; try discriminate.
  destruct (jwt.DecodeHeader h) as [[a|]|]; try discriminate.
  injection D as ->.
  destruct (jwt.DecodeClaims p) as [cl|]; [|reflexivity].
  destruct (jwt.GetSigningMethod alg); [|reflexivity].
  destruct (jwt.DecodeSegment s); [|reflexivity].
  destruct (String.eqb_spec alg (handlers.Algorithm ctx)); [contradiction | reflexivity].
Qed.

Lemma foreign_signature_unverified ctx tokenString :
  token.signedWith (handlers.Algorithm ctx) (handlers.SecretKey ctx) tokenString = false ->
  token.verified ctx tokenString = None.
Proof.
  unfold token.signedWith, token.verified, jwt.ParseUnverified.
  intros S.
  destruct (10 <=? String.length tokenString)%nat; [|reflexivity].
  destruct (strings.Split tokenString ".") as [|h [|p [|s [|x l]]]]; try reflexivity.
  destruct (jwt.DecodeHeader h) as [[a|]|]; try reflexivity;
    destruct (jwt.DecodeClaims p) as [cl|]; try reflexivity.
  destruct (jwt.GetSigningMethod a); [|reflexivity].
  destruct (jwt.DecodeSegment s) as [sig|]; [|reflexivity].
  destruct (String.eqb_spec a (handlers.Algorithm ctx)) as [->|]; [|reflexivity].
  now rewrite S.
Qed.

(** C6.  A token that declares another algorithm than the configured
    one, or whose signature is the tag of another secret and not that
    of the process secret, is turned down with an error by the parser,
    whatever its claims say; neither the clock nor the store is
    consulted. *)
Theorem foreign_algorithm_or_secret_rejected ctx tokenString w :
  (10 <= String.length tokenString)%nat ->
  (exists alg, token.declaredAlg tokenString = Some alg /\
               alg <> handlers.Algorithm ctx) \/
  (exists key, key <> handlers.SecretKey ctx /\
               token.signedWith (handlers.Algorithm ctx) key tokenString = true /\
               token.signedWith (handlers.Algorithm ctx) (handlers.SecretKey ctx)
                                tokenString = false) ->
  exists e, handlers.ValidateToken ctx tokenString w
            = Done (inl (ErrInvalidToken (ErrJWT e))) w.
Proof.
  intros Hlen H.
  assert (V : token.verified ctx tokenString = None).
  { destruct H as [(alg & D & Hne) | (key & _ & _ & S)].
    - now apply (foreign_algorithm_unverified ctx tokenString alg).
    - now apply foreign_signature_unverified. }
  destruct (parse_unverified ctx tokenString w Hlen V) as [e He].
  exists e. unfold handlers.ValidateToken, bind. now rewrite He.
Qed.

(** *** Identities the store answers with an empty login *)

(** C10.  [GetUser] reports "user not found" exactly when the exchange
    ends in a 200 response whose body decodes to a record with an empty
    [Login].  So when the store answers a lookup of [username] with
    such a record, [Login] and [CreateToken] answer 401 after that one
    lookup, nothing being signed or written, for a request whose
    username is [username] and reaches the store as written
    ([url.plain]); and [ValidateToken] of a token for that identity
    that passed every earlier check fails with "user not found". *)
Theorem empty_login_is_not_found ctx username rec w :
  (forall cl u w0,
     (exists w1, client.GetUser cl u w0 = Done (inl ErrUserNotFound) w1) <->
     (exists data w1,
        http.Do (GetUserData (client.ServiceName cl) u) w0
        = Done (http.Response http.StatusOK (Some data)) w1 /\
        models.UserData.Login data = EmptyString)) /\
  (token.healthy w ->
   db w !! username = Some rec ->
   models.UserData.Login rec = EmptyString ->
   let asked := token.asked (GetUserData (config.ServiceName (handlers.Config ctx)) username) in
   (forall c creds,
      gin.ShouldBind c = Some creds ->
      models.User.Username creds = username ->
      url.plain username ->
      handlers.Login ctx c w
      = Done (gin.JSON c http.StatusUnauthorized (gin.ErrorResponse gin.UserNotFound))
             (asked w) /\
      handlers.CreateToken ctx c w
      = Done (gin.JSON c http.StatusUnauthorized
                       (gin.ErrorResponse gin.WrongUsernameOrPassword))
             (asked w)) /\
   (forall tokenString claims exp,
      token.verified ctx tokenString = Some claims ->
      handlers.Username claims = username ->
      username <> EmptyString -> 0 <= handlers.AgencyID claims ->
      jwt.verifyNotBefore claims (now w) = true ->
      jwt.ExpiresAt (handlers.Registered claims) = Some exp ->
      now w < exp -> now (time.advance w) <= exp ->
      handlers.ValidateToken ctx tokenString w
      = Done (inl ErrUserNotFound) (asked (time.advance (time.advance w))))).
Proof.
  split.
  - intros cl u w0. unfold client.GetUser, bind. split.
    + intros [w1 H].
      destruct (http.Do (GetUserData (client.ServiceName cl) u) w0)
        as [[|st body] w2|w2]; try discriminate.
      destruct (Z.eqb_spec st http.StatusOK) as [->|]; simpl in H; [|discriminate].
      destruct body as [data|]; [|discriminate].
      destruct (String.eqb_spec (models.UserData.Login data) EmptyString); [|discriminate].
      eauto.
    + intros (data & w1 & -> & Hl). simpl. rewrite Hl. simpl. eauto.
  - intros Hh Hdb Hl asked. split.
    + intros c creds Hb Hu _. subst username.
      unfold handlers.Login, handlers.CreateToken, bind. rewrite Hb.
      rewrite (GetUser_empty_login _ _ _ rec Hh Hdb Hl). split; reflexivity.
    + intros tokenString claims exp V Hu Hne Ha Hn He H1 H2. subst username.
      rewrite (ValidateToken_verified _ _ _ w V).
      unfold jwt.verifyExpiresAt; simpl. rewrite He, Hn.
      destruct (Z.ltb_spec (now w) exp); [simpl | lia].
      destruct (String.eqb_spec (handlers.Username claims) EmptyString); [contradiction|].
      destruct (Z.ltb_spec (handlers.AgencyID claims) 0); [lia|].
      destruct (Z.ltb_spec exp (now (time.advance w))); [lia|].
      rewrite (GetUser_empty_login _ _ _ rec); trivial.
      * now do 2 apply healthy_advance.
      * now rewrite !db_advance.
Qed.

(** *** Issuing *)

Lemma append_assoc (a b c : string) : (a +:+ b) +:+ c = a +:+ (b +:+ c).
Proof.
  induction a as [|x a IH]; [reflexivity|].
  change (String x ((a +:+ b) +:+ c) = String x (a +:+ b +:+ c)).
  now rewrite IH.
Qed.

(** With faithful encoders, what [SignedString] makes under the
    configured method and the process secret passes structure and
    signature, and carries the claims it was made from. *)
Lemma signed_verified ctx claims tokenString :
  jwt.SignedString (handlers.Algorithm ctx) claims (handlers.SecretKey ctx)
  = Some tokenString ->
  jwt.GetSigningMethod (handlers.Algorithm ctx) = true ->
  token.faithful (handlers.Algorithm ctx) claims (handlers.SecretKey ctx) ->
  token.verified ctx tokenString = Some claims.
Proof.
  unfold jwt.SignedString, token.faithful. cbv zeta.
  set (h := jwt.EncodeHeader (handlers.Algorithm ctx)).
  set (p := jwt.EncodeClaims claims).
  destruct (jwt.Sign (handlers.Algorithm ctx) (h +:+ "." +:+ p) (handlers.SecretKey ctx))
    as [sig|] eqn:S; [|discriminate].
  intros [= <-] G (Hh & Hp & Dh & Dp & F).
  destruct (F sig eq_refl) as (Hs & Ds & Hlen).
  unfold token.verified. apply Nat.leb_le in Hlen. rewrite Hlen.
  unfold jwt.ParseUnverified.
  rewrite (append_assoc h ("." +:+ p) ("." +:+ jwt.EncodeSegment sig)).
  change (("." +:+ p) +:+ "." +:+ jwt.EncodeSegment sig)
    with ("." +:+ p +:+ "." +:+ jwt.EncodeSegment sig).
  rewrite (Split_signed _ _ _ Hh Hp Hs), Dh, Dp, G, Ds, String.eqb_refl.
  unfold jwt.Verify. rewrite S, String.eqb_refl. reflexivity.
Qed.

Lemma advance_asked r w :
  time.advance (token.asked r w) = token.asked r (time.advance w).
Proof.
  unfold time.advance, token.asked. simpl.
  destruct (later w) eqn:E; simpl; now rewrite ?E.
Qed.

Lemma createToken_inv ctx username agencyID w tokenString w' :
  handlers.createToken ctx username agencyID w = Done (inr tokenString) w' ->
  jwt.GetSigningMethod (handlers.Algorithm ctx) = true /\
  jwt.SignedString (handlers.Algorithm ctx)
    (handlers.newClaims username agencyID
       (now w + handlers.TokenTTL ctx) (now (time.advance w)))
    (handlers.SecretKey ctx) = Some tokenString /\
  w' = time.advance (time.advance w).
Proof.
  unfold handlers.createToken, bind, time.Now.
  destruct (jwt.GetSigningMethod (handlers.Algorithm ctx)); [|discriminate].
  destruct (jwt.SignedString _ _ _) as [t|]; [|discriminate].
  intros [= -> <-]. auto.
Qed.

(** A write that the client reports as done has replaced the token of
    the record filed under the identity it names. *)
Lemma UpdateToken_inv cl username tok w w' :
  client.UpdateToken cl username tok w = Done None w' ->
  exists rec, db w !! username = Some rec /\
              db w' = <[username := http.set_token rec tok]> (db w) /\
              calls w' = TokenUpdate (models.LocalAPIRequest.mk
                                        (client.ServiceName cl) username tok) :: calls w.
Proof.
  unfold client.UpdateToken, bind, http.Do. intros H.
  destruct (net w) as [|[| | | |] n]; simpl in H; try discriminate;
    destruct (db w !! username) as [rec|] eqn:E; simpl in H; try discriminate;
    injection H as <-; eauto.
Qed.

Lemma DeleteToken_inv cl username tok w w' :
  client.DeleteToken cl username tok w = Done None w' ->
  exists rec, db w !! username = Some rec /\
              db w' = <[username := http.set_token rec EmptyString]> (db w).
Proof.
  unfold client.DeleteToken, bind, http.Do. intros H.
  destruct (net w) as [|[| | | |] n]; simpl in H; try discriminate;
    destruct (db w !! username) as [rec|] eqn:E; simpl in H; try discriminate;
    injection H as <-; eauto.
Qed.

(** A handler that returned [H] did not answer with the 200 of [Hw]. *)
Ltac refused H Hw :=
  injection H as <- <-;
  cbv [gin.Written gin.JSON http.StatusOK http.StatusBadRequest
       http.StatusUnauthorized http.StatusInternalServerError] in Hw;
  discriminate Hw.

Ltac issue_inv H Hw :=
  match type of H with
  | context [gin.ShouldBind ?c] =>
      destruct (gin.ShouldBind c) as [creds|] eqn:Hbind; [|refused H Hw]
  end;
  match type of H with
  | context [client.GetUser ?cl ?u ?w] =>
      destruct (client.GetUser cl u w) as [[e|user] wg|wg] eqn:Hget;
      [refused H Hw | | discriminate]
  end;
  match type of H with
  | context [utils.VerifyPassword ?a ?b] =>
      destruct (utils.VerifyPassword a b) eqn:Hpw; simpl in H; [|refused H Hw]
  end;
  match type of H with
  | context [handlers.createToken ?x ?u ?a ?w] =>
      destruct (handlers.createToken x u a w) as [[e|token] wc|wc] eqn:Hmint;
      [refused H Hw | | discriminate]
  end;
  match type of H with
  | context [client.UpdateToken ?cl ?u ?t ?w] =>
      destruct (client.UpdateToken cl u t w) as [[e|] wu|wu] eqn:Hput;
      [refused H Hw | | discriminate]
  end.

Lemma issued_of_parts ctx c w creds user wg token wc w1 :
  gin.ShouldBind c = Some creds ->
  client.GetUser (client.NewAPIClient (handlers.Config ctx))
                 (models.User.Username creds) w = Done (inr user) wg ->
  utils.VerifyPassword (models.User.Password creds) (models.UserData.Password user) = true ->
  handlers.createToken ctx (models.UserData.Login user) (models.UserData.AgencyID user) wg
  = Done (inr token) wc ->
  client.UpdateToken (client.NewAPIClient (handlers.Config ctx))
                     (models.User.Username creds) token wc = Done None w1 ->
  token.issued ctx c w w1 token.
Proof.
  intros Hbind Hget Hpw Hmint Hput.
  apply GetUser_inv in Hget as (Hdb & Hl & _ & ->).
  apply createToken_inv in Hmint as (G & S & ->).
  apply UpdateToken_inv in Hput as (rec & Hdb' & Hdb1 & Hcalls).
  rewrite !db_advance in Hdb', Hdb1. simpl in Hdb', Hdb1.
  rewrite !calls_advance in Hcalls. simpl in Hcalls.
  rewrite Hdb in Hdb'. injection Hdb' as <-.
  rewrite advance_asked in S. simpl in S.
  exists creds, user. repeat split; trivial.
Qed.

Lemma Login_inv ctx c w c1 w1 tok ty :
  handlers.Login ctx c w = Done c1 w1 ->
  gin.Written c1 = Some (http.StatusOK, gin.TokenResponse tok ty) ->
  token.issued ctx c w w1 tok.
Proof.
  unfold handlers.Login, bind. intros H Hw.
  issue_inv H Hw.
  injection H as <- <-. injection Hw as <- _.
  eapply issued_of_parts; eauto.
Qed.

Lemma CreateToken_inv ctx c w c1 w1 tok ty :
  handlers.CreateToken ctx c w = Done c1 w1 ->
  gin.Written c1 = Some (http.StatusOK, gin.TokenResponse tok ty) ->
  token.issued ctx c w w1 tok.
Proof.
  unfold handlers.CreateToken, bind. intros H Hw.
  issue_inv H Hw.
  injection H as <- <-. injection Hw as <- _.
  eapply issued_of_parts; eauto.
Qed.

(** C9.  After a 200 answer of [Login] or [CreateToken] to a request
    whose username reaches the store as written ([url.plain]), the
    token is what [SignedString] makes of claims whose identity is the
    [Login] field of the record that the store returned, whereas the
    update sent to the store names the username of the request.  The
    two are the same identity exactly when the record's [Login] is the
    username that was asked for. *)
Theorem issued_identity_and_update_key ctx c creds w c1 w1 tok :
  gin.ShouldBind c = Some creds ->
  url.plain (models.User.Username creds) ->
  handlers.Login ctx c w = Done c1 w1 \/ handlers.CreateToken ctx c w = Done c1 w1 ->
  gin.Written c1 = Some (http.StatusOK, gin.TokenResponse tok "bearer") ->
  exists rec claims,
    db w !! models.User.Username creds = Some rec /\
    jwt.SignedString (handlers.Algorithm ctx) claims (handlers.SecretKey ctx) = Some tok /\
    handlers.Username claims = models.UserData.Login rec /\
    calls w1
    = TokenUpdate (models.LocalAPIRequest.mk (config.ServiceName (handlers.Config ctx))
                                             (models.User.Username creds) tok)
      :: GetUserData (config.ServiceName (handlers.Config ctx))
                     (models.User.Username creds)
      :: calls w /\
    (handlers.Username claims = models.User.Username creds <->
     models.UserData.Login rec = models.User.Username creds).
Proof.
  intros Hb _ H Hw.
  assert (I : token.issued ctx c w w1 tok).
  { destruct H as [H|H]; [eapply Login_inv | eapply CreateToken_inv]; eauto. }
  destruct I as (creds' & rec & Hb' & Hdb & _ & _ & _ & S & _ & Hc).
  rewrite Hb in Hb'. injection Hb' as <-.
  exists rec. eexists. repeat split; eauto.
Qed.

(** C2, amended.  When [Login] answers 200 for credentials whose
    username reaches the store as written ([url.plain]) and whose
    record carries the queried identity as its [Login] and a tenant id
    that is not negative, then, the encoders being faithful on the
    claims that were signed, [ValidateToken] accepts the returned token
    in every later world where the store is reachable and unchanged and
    the clock has not reached the expiry, and it returns the identity
    and the tenant id of the record. *)
Theorem login_then_validate ctx c w c1 w1 tok creds rec w2 :
  handlers.Login ctx c w = Done c1 w1 ->
  gin.Written c1 = Some (http.StatusOK, gin.TokenResponse tok "bearer") ->
  gin.ShouldBind c = Some creds ->
  url.plain (models.User.Username creds) ->
  db w !! models.User.Username creds = Some rec ->
  models.UserData.Login rec = models.User.Username creds ->
  0 <= models.UserData.AgencyID rec ->
  token.faithful (handlers.Algorithm ctx)
    (handlers.newClaims (models.UserData.Login rec) (models.UserData.AgencyID rec)
       (now w + handlers.TokenTTL ctx) (now (time.advance w)))
    (handlers.SecretKey ctx) ->
  db w2 = db w1 -> token.healthy w2 ->
  now w2 < jwt.NewNumericDate (now w + handlers.TokenTTL ctx) ->
  now (time.advance w2) <= jwt.NewNumericDate (now w + handlers.TokenTTL ctx) ->
  exists claims w3,
    handlers.ValidateToken ctx tok w2 = Done (inr claims) w3 /\
    handlers.Username claims = models.UserData.Login rec /\
    handlers.AgencyID claims = models.UserData.AgencyID rec.
Proof.
  intros H Hw Hb _ Hdb Hkey Ha F Hdb2 Hh H1 H2.
  destruct (Login_inv _ _ _ _ _ _ _ H Hw)
    as (creds' & rec' & Hb' & Hdb' & Hl & _ & G & S & Hdb1 & _).
  rewrite Hb in Hb'. injection Hb' as <-.
  rewrite Hdb in Hdb'. injection Hdb' as <-.
  pose proof (signed_verified _ _ _ S G F) as V.
  eexists (handlers.newClaims _ _ _ _). eexists. split; [|split; reflexivity].
  eapply (ValidateToken_accepts ctx tok _ _ (http.set_token rec tok) w2 V);
    try reflexivity; trivial.
  rewrite Hdb2, Hdb1. simpl. rewrite Hkey. apply lookup_insert_eq.
Qed.

(** *** Behind the gate *)

Lemma gate_keys (c : gin.Context) (u t : string) (a : Z) :
  let c' := gin.Set_ (gin.Set_ (gin.Set_ c "username" (gin.Str u))
                               "agencyID" (gin.Int a))
                     "token" (gin.Str t) in
  gin.GetString c' "username" = u /\ gin.GetInt c' "agencyID" = a /\
  gin.GetString c' "token" = t.
Proof.
  unfold gin.GetString, gin.GetInt, gin.Set_; simpl.
  repeat split.
  - now rewrite lookup_insert_ne, lookup_insert_ne, lookup_insert_eq.
  - now rewrite lookup_insert_ne, lookup_insert_eq.
  - now rewrite lookup_insert_eq.
Qed.

(** A fresh request that comes out of a gated route with a 200 answer
    went through [ValidateToken] and then through the handler. *)
Lemma AuthMiddleware_inv ctx next header creds w c1 w1 body :
  middleware.AuthMiddleware ctx next (gin.request header creds) w = Done c1 w1 ->
  gin.Written c1 = Some (http.StatusOK, body) ->
  exists claims w',
    handlers.ValidateToken ctx (middleware.bearerToken header) w = Done (inr claims) w' /\
    next (gin.Set_ (gin.Set_ (gin.Set_ (gin.request header creds)
                                       "username" (gin.Str (handlers.Username claims)))
                             "agencyID" (gin.Int (handlers.AgencyID claims)))
                   "token" (gin.Str (middleware.bearerToken header))) w'
    = Done c1 w1.
Proof.
  unfold middleware.AuthMiddleware, bind. simpl. intros H Hw.
  destruct (String.eqb header EmptyString); [refused H Hw|].
  destruct (strings.slice_to (middleware.bearerToken header) 10); [|discriminate].
  destruct (handlers.ValidateToken ctx (middleware.bearerToken header) w)
    as [[e|claims] w'|w']; [refused H Hw | | discriminate].
  eauto.
Qed.

Lemma verifyNotBefore_later (claims : handlers.Claims) (t t' : Z) :
  jwt.verifyNotBefore claims t = true -> t <= t' ->
  jwt.verifyNotBefore claims t' = true.
Proof.
  unfold jwt.verifyNotBefore. destruct (jwt.GetNotBefore claims) as [nbf|]; [|trivial].
  intros H Hle. apply negb_true_iff in H. apply negb_true_iff.
  apply Z.ltb_ge in H. apply Z.ltb_ge. lia.
Qed.

Lemma verified_length ctx tokenString claims :
  token.verified ctx tokenString = Some claims ->
  (10 <= String.length tokenString)%nat.
Proof.
  unfold token.verified.
  destruct (Nat.leb_spec 10 (String.length tokenString)); [trivial | discriminate].
Qed.

Lemma db_asked r w : db (token.asked r w) = db w.
Proof. reflexivity. Qed.

(** C3, amended.  Once the logout route has answered 200 for a token,
    the record of the token's identity has an empty token field.  At
    every later [ValidateToken] of that token before its expiry, with
    the store in reach and holding a record with a login for the
    identity, the signature being as valid as before, the answer is the
    mismatch error for as long as that record's token field is not that
    very string; once the string is on file again, the token is
    accepted again. *)
Theorem revoked_token_is_rejected ctx header creds w0 c1 w1 claims exp w2 rec2 :
  main.route_logout ctx (gin.request header creds) w0 = Done c1 w1 ->
  gin.Written c1 = Some (http.StatusOK, gin.Message gin.LoggedOut) ->
  token.verified ctx (middleware.bearerToken header) = Some claims ->
  jwt.ExpiresAt (handlers.Registered claims) = Some exp ->
  db w2 !! handlers.Username claims = Some rec2 ->
  models.UserData.Login rec2 <> EmptyString ->
  token.healthy w2 ->
  now w0 <= now w2 -> now w2 < exp -> now (time.advance w2) <= exp ->
  (exists rec, db w1 !! handlers.Username claims = Some rec /\
               models.UserData.JWTToken rec = EmptyString) /\
  (models.UserData.JWTToken rec2 <> middleware.bearerToken header ->
   exists w3,
     handlers.ValidateToken ctx (middleware.bearerToken header) w2
     = Done (inl ErrTokenMismatch) w3) /\
  (models.UserData.JWTToken rec2 = middleware.bearerToken header ->
   exists w3,
     handlers.ValidateToken ctx (middleware.bearerToken header) w2
     = Done (inr claims) w3).
Proof.
  intros R Hw V He Hdb2 Hl2 Hh Hmono H1 H2.
  unfold main.route_logout in R.
  destruct (AuthMiddleware_inv _ _ _ _ _ _ _ _ R Hw) as (cl & w' & Hv & L).
  apply ValidateToken_inv in Hv
    as (V' & Hu & Ha & Hn & _ & (rec0 & Hdb0 & Hl0 & _) & _ & ->).
  rewrite V in V'. injection V' as <-.
  unfold handlers.Logout, bind in L.
  destruct (gate_keys (gin.request header creds) (handlers.Username claims)
              (middleware.bearerToken header) (handlers.AgencyID claims))
    as (Ku & _ & Kt).
  cbv zeta in Ku, Kt. rewrite Ku, Kt in L.
  destruct (client.DeleteToken _ _ _ _) as [[e|] wd|wd] eqn:D;
    [refused L Hw | | discriminate].
  injection L as _ ->.
  apply DeleteToken_inv in D as (rec & Hdb & Hdb1).
  rewrite db_asked, !db_advance in Hdb, Hdb1.
  rewrite Hdb0 in Hdb. injection Hdb as ->.
  assert (Hrec : db w1 !! handlers.Username claims = Some (http.set_token rec EmptyString)).
  { rewrite Hdb1. apply lookup_insert_eq. }
  assert (Hn2 : jwt.verifyNotBefore claims (now w2) = true)
    by now apply (verifyNotBefore_later claims (now w0)).
  split; [eauto|]. split; intros Ht; eexists.
  - now apply (ValidateToken_mismatch ctx _ claims exp rec2 w2).
  - now apply (ValidateToken_accepts ctx _ claims exp rec2 w2).
Qed.

(** C4, amended.  Once the refresh route has answered 200 with a new
    token, then, the encoders being faithful on the new claims, the new
    token is accepted in every later world where the store is reachable
    and unchanged and the clock has not reached the new expiry; and the
    old token, whenever the new string differs from it, fails with the
    mismatch error there for as long as it has not expired. *)
Theorem refresh_supersedes ctx header creds w0 c1 w1 newToken claims w2 :
  main.route_token_refresh ctx (gin.request header creds) w0 = Done c1 w1 ->
  gin.Written c1 = Some (http.StatusOK, gin.TokenResponse newToken "bearer") ->
  token.verified ctx (middleware.bearerToken header) = Some claims ->
  token.faithful (handlers.Algorithm ctx)
    (handlers.newClaims (handlers.Username claims) (handlers.AgencyID claims)
       (time.reading 2 w0 + handlers.TokenTTL ctx) (time.reading 3 w0))
    (handlers.SecretKey ctx) ->
  db w2 = db w1 -> token.healthy w2 ->
  now w2 < jwt.NewNumericDate (time.reading 2 w0 + handlers.TokenTTL ctx) ->
  now (time.advance w2) <= jwt.NewNumericDate (time.reading 2 w0 + handlers.TokenTTL ctx) ->
  (exists w3,
     handlers.ValidateToken ctx newToken w2
     = Done (inr (handlers.newClaims (handlers.Username claims) (handlers.AgencyID claims)
                    (time.reading 2 w0 + handlers.TokenTTL ctx) (time.reading 3 w0)))
            w3) /\
  (middleware.bearerToken header <> newToken ->
   forall exp,
     jwt.ExpiresAt (handlers.Registered claims) = Some exp ->
     now w0 <= now w2 -> now w2 < exp -> now (time.advance w2) <= exp ->
     exists w3,
       handlers.ValidateToken ctx (middleware.bearerToken header) w2
       = Done (inl ErrTokenMismatch) w3).
Proof.
  intros R Hw V F Hdb2 Hh H1 H2.
  unfold main.route_token_refresh in R.
  destruct (AuthMiddleware_inv _ _ _ _ _ _ _ _ R Hw) as (cl & w' & Hv & L).
  apply ValidateToken_inv in Hv
    as (V' & Hu & Ha & Hn & _ & (rec0 & Hdb0 & Hl0 & _) & _ & ->).
  rewrite V in V'. injection V' as <-.
  unfold handlers.RefreshToken, bind in L.
  destruct (gate_keys (gin.request header creds) (handlers.Username claims)
              (middleware.bearerToken header) (handlers.AgencyID claims))
    as (Ku & Ka & _).
  cbv zeta in Ku, Ka. rewrite Ku, Ka in L.
  destruct (handlers.createToken _ _ _ _) as [[e|t] wc|wc] eqn:M;
    [refused L Hw | | discriminate].
  destruct (client.UpdateToken _ _ _ _) as [[e|] wu|wu] eqn:U;
    [refused L Hw | | discriminate].
  injection L as <- ->. simpl in Hw. injection Hw as ->.
  apply createToken_inv in M as (G & S & ->).
  apply UpdateToken_inv in U as (rec & Hdb & Hdb1 & _).
  rewrite !db_advance, db_asked, !db_advance in Hdb, Hdb1.
  rewrite Hdb0 in Hdb. injection Hdb as <-.
  rewrite advance_asked in S. simpl in S.
  change (now (time.advance (time.advance w0))) with (time.reading 2 w0) in S.
  change (now (time.advance (time.advance (time.advance w0))))
    with (time.reading 3 w0) in S.
  pose proof (signed_verified _ _ _ S G F) as Vn.
  assert (Hrec : db w2 !! handlers.Username claims = Some (http.set_token rec0 newToken)).
  { rewrite Hdb2, Hdb1. apply lookup_insert_eq. }
  split.
  - eexists.
    eapply (ValidateToken_accepts ctx newToken _ _ (http.set_token rec0 newToken) w2 Vn);
      try reflexivity; trivial.
  - intros Hne exp He Hmono H3 H4. eexists.
    apply (ValidateToken_mismatch ctx _ claims exp (http.set_token rec0 newToken) w2);
      trivial.
    + now apply (verifyNotBefore_later claims (now w0)).
    + simpl. congruence.
Qed.

End Gateway.

(** ** The service at work on the sample store *)

Ltac run := vm_compute; first [exact I | reflexivity | discriminate | intro; discriminate].

Ltac plainly := unfold url.plain; simpl; repeat constructor.

Ltac faithful_by_running :=
  unfold token.faithful; cbv zeta;
  split; [run|]; split; [run|]; split; [run|]; split; [run|];
  intros sig Hs; vm_compute in Hs; injection Hs as <-;
  split; [run|]; split; [run|];
  apply Nat.leb_le; run.

Lemma short_token_panics_witness :
  @handlers.ValidateToken sample.JWT sample.ctx "abc" (sample.world sample.t0)
  = Panicked (sample.world sample.t0) /\
  @middleware.AuthMiddleware sample.JWT sample.ctx ret (gin.request "Bearer abc" None)
                             (sample.world sample.t0)
  = Panicked (sample.world sample.t0).
Proof.
  destruct (short_token_panics (JWT := sample.JWT) sample.ctx ret
              (gin.request "Bearer abc" None) (sample.world sample.t0) "abc")
    as [H1 H2].
  - simpl. lia.
  - split; [exact H1 | apply H2].
    + discriminate.
    + unfold strings.is_ascii. simpl. repeat constructor.
    + reflexivity.
Defined.

Lemma expiry_boundary_witness :
  (exists e,
     @handlers.ValidateToken sample.JWT sample.ctx sample.tok
       (sample.at_time sample.exp0 (sample.after sample.login))
     = Done (inl e) (time.advance (sample.at_time sample.exp0 (sample.after sample.login))) /\
     token.expiredError e) /\
  (exists w',
     @handlers.ValidateToken sample.JWT sample.ctx sample.tok
       (sample.at_time (sample.exp0 - 1) (sample.after sample.login))
     = Done (inr sample.claims0) w').
Proof.
  split.
  - apply (expiry_boundary (JWT := sample.JWT) sample.ctx sample.tok sample.claims0
             sample.exp0); run.
  - destruct (expiry_boundary (JWT := sample.JWT) sample.ctx sample.tok sample.claims0
                sample.exp0 (sample.at_time (sample.exp0 - 1) (sample.after sample.login)))
      as [_ H]; [run | run |].
    destruct H as [_ H]; [run | run | run | run |].
    apply (H ltac:(run) (http.set_token sample.alice sample.tok)); run.
Defined.

Lemma foreign_algorithm_or_secret_rejected_witness :
  (exists e,
     @handlers.ValidateToken sample.JWT sample.ctx sample.tok_HS384 (sample.world sample.t0)
     = Done (inl (ErrInvalidToken (ErrJWT e))) (sample.world sample.t0)) /\
  (exists e,
     @handlers.ValidateToken sample.JWT sample.ctx sample.tok_other_key
                             (sample.world sample.t0)
     = Done (inl (ErrInvalidToken (ErrJWT e))) (sample.world sample.t0)).
Proof.
  split.
  - apply (foreign_algorithm_or_secret_rejected (JWT := sample.JWT)).
    + apply Nat.leb_le; run.
    + left. exists "HS384". split; run.
  - apply (foreign_algorithm_or_secret_rejected (JWT := sample.JWT)).
    + apply Nat.leb_le; run.
    + right. exists "0ddba11". repeat split; run.
Defined.

Lemma empty_login_is_not_found_witness :
  @handlers.Login sample.JWT sample.BC sample.ctx (sample.credentials "carol" "pw3")
                  (sample.world sample.t0)
  = Done (gin.JSON (sample.credentials "carol" "pw3") http.StatusUnauthorized
                   (gin.ErrorResponse gin.UserNotFound))
         (token.asked (GetUserData "auth" "carol") (sample.world sample.t0)) /\
  @handlers.ValidateToken sample.JWT sample.ctx sample.tok_carol (sample.world sample.t0)
  = Done (inl ErrUserNotFound)
         (token.asked (GetUserData "auth" "carol") (sample.world sample.t0)).
Proof.
  destruct (empty_login_is_not_found (JWT := sample.JWT) (BC := sample.BC)
              sample.ctx "carol" sample.carol (sample.world sample.t0))
    as [_ H].
  destruct H as [HL HV]; [run | run | run |].
  split.
  - apply (HL (sample.credentials "carol" "pw3") (models.User.mk "carol" "pw3"));
      first [run | plainly].
  - apply (HV sample.tok_carol
              (handlers.newClaims "carol" 3 (sample.t0 + handlers.TokenTTL sample.ctx)
                                  sample.t0)
              sample.exp0); run.
Defined.

Lemma issued_identity_and_update_key_witness :
  (exists claims,
     @jwt.SignedString _ sample.JWT "HS256" claims "5ec2e7" = Some sample.tok /\
     handlers.Username claims = "alice" /\
     calls (sample.after sample.login)
     = [TokenUpdate (models.LocalAPIRequest.mk "auth" "alice" sample.tok);
        GetUserData "auth" "alice"]) /\
  (exists claims,
     @jwt.SignedString _ sample.JWT "HS256" claims "5ec2e7"
     = Some (sample.access_token sample.create_dave) /\
     handlers.Username claims = "Dave" /\
     calls (sample.after sample.create_dave)
     = [TokenUpdate (models.LocalAPIRequest.mk "auth" "dave"
                       (sample.access_token sample.create_dave));
        GetUserData "auth" "dave"] /\
     handlers.Username claims <> "dave").
Proof.
  split.
  - destruct (issued_identity_and_update_key (JWT := sample.JWT) (BC := sample.BC)
                sample.ctx (sample.credentials "alice" "pw1")
                (models.User.mk "alice" "pw1") (sample.world sample.t0)
                (sample.reply sample.login) (sample.after sample.login) sample.tok)
      as (rec & claims & Hdb & S & Hu & Hc & _).
    + run.
    + plainly.
    + left. run.
    + run.
    + vm_compute in Hdb. injection Hdb as <-.
      exists claims. auto.
  - destruct (issued_identity_and_update_key (JWT := sample.JWT) (BC := sample.BC)
                sample.ctx (sample.credentials "dave" "pw4")
                (models.User.mk "dave" "pw4") (sample.world sample.t0)
                (sample.reply sample.create_dave) (sample.after sample.create_dave)
                (sample.access_token sample.create_dave))
      as (rec & claims & Hdb & S & Hu & Hc & Hiff).
    + run.
    + plainly.
    + right. run.
    + run.
    + vm_compute in Hdb. injection Hdb as <-.
      exists claims. repeat split; trivial.
      intros E. apply Hiff in E. discriminate E.
Defined.

Lemma login_then_validate_witness :
  exists claims w3,
    @handlers.ValidateToken sample.JWT sample.ctx sample.tok (sample.after sample.login)
    = Done (inr claims) w3 /\
    handlers.Username claims = "alice" /\ handlers.AgencyID claims = 7.
Proof.
  apply (login_then_validate (JWT := sample.JWT) (BC := sample.BC)
           sample.ctx (sample.credentials "alice" "pw1") (sample.world sample.t0)
           (sample.reply sample.login) (sample.after sample.login) sample.tok
           (models.User.mk "alice" "pw1") sample.alice (sample.after sample.login));
    try run.
  - plainly.
  - faithful_by_running.
Defined.

(** C2 as stated fails on valid credentials whose record has a
    negative tenant id: bob's password matches, [Login] answers 200
    with a token, and [ValidateToken] turns that token down at once. *)
Lemma login_of_negative_tenant_is_not_validated :
  sample.store !! "bob" = Some sample.bob /\
  @utils.VerifyPassword sample.BC "pw2" (models.UserData.Password sample.bob) = true /\
  sample.response sample.login_bob
  = Some (http.StatusOK,
          gin.TokenResponse (sample.access_token sample.login_bob) "bearer") /\
  @handlers.ValidateToken sample.JWT sample.ctx (sample.access_token sample.login_bob)
                          (sample.after sample.login_bob)
  = Done (inl ErrNoAgency) (time.advance (sample.after sample.login_bob)).
Proof. repeat split; run. Qed.

Lemma revoked_token_is_rejected_witness :
  (exists w3,
     @handlers.ValidateToken sample.JWT sample.ctx sample.tok (sample.after sample.logout)
     = Done (inl ErrTokenMismatch) w3) /\
  (exists w3,
     @handlers.ValidateToken sample.JWT sample.ctx sample.tok (sample.after sample.relogin)
     = Done (inr sample.claims0) w3).
Proof.
  split.
  - destruct (revoked_token_is_rejected (JWT := sample.JWT)
                sample.ctx sample.tok None (sample.after sample.login)
                (sample.reply sample.logout) (sample.after sample.logout)
                sample.claims0 sample.exp0 (sample.after sample.logout)
                (http.set_token sample.alice EmptyString))
      as (_ & H & _); try run.
    apply H. run.
  - destruct (revoked_token_is_rejected (JWT := sample.JWT)
                sample.ctx sample.tok None (sample.after sample.login)
                (sample.reply sample.logout) (sample.after sample.logout)
                sample.claims0 sample.exp0 (sample.after sample.relogin)
                (http.set_token sample.alice sample.tok))
      as (_ & _ & H); try run.
    apply H. run.
Defined.

(** C3 as stated fails when the identity logs in again within the
    clock second of the first login: the logout answers 200 and clears
    the token field, the second login, 300 ms after the first, answers
    200 with the string that was revoked, and [ValidateToken] accepts
    that string from then on. *)
Lemma login_within_the_second_revives_the_revoked_token :
  sample.response sample.login
  = Some (http.StatusOK, gin.TokenResponse sample.tok "bearer") /\
  sample.response sample.logout = Some (http.StatusOK, gin.Message gin.LoggedOut) /\
  db (sample.after sample.logout) !! "alice"
  = Some (http.set_token sample.alice EmptyString) /\
  sample.response sample.relogin
  = Some (http.StatusOK, gin.TokenResponse sample.tok "bearer") /\
  now (sample.after sample.relogin) = sample.t0 + 300000000 /\
  exists w3,
    @handlers.ValidateToken sample.JWT sample.ctx sample.tok (sample.after sample.relogin)
    = Done (inr sample.claims0) w3.
Proof. repeat split; try run. eexists; run. Qed.

Lemma refresh_supersedes_witness :
  (exists w3,
     @handlers.ValidateToken sample.JWT sample.ctx
       (sample.access_token sample.refresh_later) (sample.after sample.refresh_later)
     = Done (inr (handlers.newClaims "alice" 7
                    (sample.t0 + 5 * time.Second + handlers.TokenTTL sample.ctx)
                    (sample.t0 + 5 * time.Second)))
            w3) /\
  (exists w3,
     @handlers.ValidateToken sample.JWT sample.ctx sample.tok
       (sample.after sample.refresh_later)
     = Done (inl ErrTokenMismatch) w3).
Proof.
  destruct (refresh_supersedes (JWT := sample.JWT)
              sample.ctx sample.tok None
              (sample.at_time (sample.t0 + 5 * time.Second) (sample.after sample.login))
              (sample.reply sample.refresh_later) (sample.after sample.refresh_later)
              (sample.access_token sample.refresh_later) sample.claims0
              (sample.after sample.refresh_later))
    as [Hnew Hold]; try run.
  - faithful_by_running.
  - split; [exact Hnew|].
    apply (Hold ltac:(apply String.eqb_neq; run) sample.exp0); run.
Defined.

(** C4 as stated fails for a refresh within the clock second in which
    the old token was issued: 300 ms after the login, and long before
    the expiry of its token, the refresh route answers 200 with a token
    that is the old string again, so the old token is accepted
    afterwards. *)
Lemma refresh_within_the_second_keeps_the_old_token :
  sample.response sample.login
  = Some (http.StatusOK, gin.TokenResponse sample.tok "bearer") /\
  sample.response sample.refresh_at_once
  = Some (http.StatusOK, gin.TokenResponse sample.tok "bearer") /\
  now (sample.after sample.refresh_at_once) = sample.t0 + 300000000 /\
  exists w3,
    @handlers.ValidateToken sample.JWT sample.ctx sample.tok
                            (sample.after sample.refresh_at_once)
    = Done (inr sample.claims0) w3.
Proof. repeat split; try run. eexists; run. Qed.

(** * More of the code *)

(** ** Configuration *)

Ltac defaulted :=
  repeat (simpl;
          match goal with
          | |- context [String.eqb ?x EmptyString] =>
              destruct (String.eqb_spec x EmptyString); [congruence|]
          | |- context [?x =? 0] => destruct (Z.eqb_spec x 0); [congruence|]
          end).

(** X1.  A configuration that [LoadConfig] returns has a port, a log
    level and a store URL that are not zero or empty; it keeps every
    value that the file sets and the service name as the file has it,
    empty or not; and loading it again gives it back unchanged. *)
Theorem LoadConfig_defaults read path cfg :
  config.LoadConfig read path = inr cfg ->
  exists file,
    read path = Some (Some file) /\
    (config.ServerPort cfg <> 0 /\ config.LogLevel cfg <> EmptyString /\
     config.LocalAPIURL cfg <> EmptyString) /\
    config.ServiceName cfg = config.ServiceName file /\
    (config.ServerPort file <> 0 -> config.ServerPort cfg = config.ServerPort file) /\
    (config.LogLevel file <> EmptyString -> config.LogLevel cfg = config.LogLevel file) /\
    (config.LocalAPIURL file <> EmptyString ->
     config.LocalAPIURL cfg = config.LocalAPIURL file) /\
    config.LoadConfig (fun _ => Some (Some cfg)) path = inr cfg.
Proof.
  unfold config.LoadConfig.
  destruct (read path) as [[file|]|]; try discriminate.
  intros [= <-]. exists file. split; [reflexivity|].
  destruct file as [name port level url]; simpl.
  destruct (Z.eqb_spec port 0) as [->|Hp]; simpl;
    destruct (String.eqb_spec level EmptyString) as [->|Hl]; simpl;
    destruct (String.eqb_spec url EmptyString) as [->|Hu];
    defaulted; simpl; repeat split; intros; try congruence; try discriminate;
    defaulted; reflexivity.
Qed.

Lemma LoadConfig_defaults_witness :
  exists file,
    scenario.files "config.json" = Some (Some file) /\
    (8080 <> 0 /\ "info" <> EmptyString /\ "http://web:8000" <> EmptyString) /\
    "auth" = config.ServiceName file /\
    (config.ServerPort file <> 0 -> 8080 = config.ServerPort file) /\
    (config.LogLevel file <> EmptyString -> "info" = config.LogLevel file) /\
    (config.LocalAPIURL file <> EmptyString ->
     "http://web:8000" = config.LocalAPIURL file) /\
    config.LoadConfig
      (fun _ => Some (Some (config.mkConfig "auth" 8080 "info" "http://web:8000")))
      "config.json"
    = inr (config.mkConfig "auth" 8080 "info" "http://web:8000").
Proof.
  apply (LoadConfig_defaults scenario.files "config.json"
           (config.mkConfig "auth" 8080 "info" "http://web:8000")).
  reflexivity.
Defined.

(** ** Logging *)

Lemma logLevel_of_config cfg l :
  logger.NewColorfulLogger true cfg = Some l ->
  (logger.logLevel l = logger.DEBUG <-> config.LogLevel cfg = "debug") /\
  (logger.logLevel l = logger.WARN <-> config.LogLevel cfg = "warn") /\
  (logger.logLevel l = logger.ERROR <-> config.LogLevel cfg = "error") /\
  (logger.logLevel l = logger.DEBUG \/ logger.logLevel l = logger.INFO \/
   logger.logLevel l = logger.WARN \/ logger.logLevel l = logger.ERROR).
Proof.
  unfold logger.NewColorfulLogger. intros [= <-]. simpl.
  destruct (String.eqb_spec (config.LogLevel cfg) "debug") as [->|];
    [repeat split; intros; try discriminate; auto|].
  destruct (String.eqb_spec (config.LogLevel cfg) "info") as [->|];
    [repeat split; intros; try discriminate; auto|].
  destruct (String.eqb_spec (config.LogLevel cfg) "warn") as [->|];
    [repeat split; intros; try discriminate; auto|].
  destruct (String.eqb_spec (config.LogLevel cfg) "error") as [->|];
    [repeat split; intros; try discriminate; auto 6|].
  repeat split; intros; try discriminate; try contradiction; auto.
Qed.

(** X2.  With the logger made from a configuration, an [Error] line is
    always written; a [Warn] line unless the level is "error"; an
    [Info] line unless it is "warn" or "error"; and a [Debug] line only
    when it is "debug", spelled so.  Any other level string, upper-case
    or empty, behaves as "info".  A line that is written goes to the
    logger of its own name with format and arguments as given. *)
Theorem logger_thresholds (A : Type) cfg l format (v : list A) :
  logger.NewColorfulLogger true cfg = Some l ->
  logger.Error A l format v = Some (logger.errorLogger, format, v) /\
  (logger.Warn A l format v = None <-> config.LogLevel cfg = "error") /\
  (logger.Info A l format v = None <->
   config.LogLevel cfg = "warn" \/ config.LogLevel cfg = "error") /\
  (logger.Debug A l format v = None <-> config.LogLevel cfg <> "debug") /\
  (forall out, logger.Warn A l format v = Some out ->
               out = (logger.warnLogger, format, v)) /\
  (forall out, logger.Info A l format v = Some out ->
               out = (logger.infoLogger, format, v)) /\
  (forall out, logger.Debug A l format v = Some out ->
               out = (logger.debugLogger, format, v)).
Proof.
  intros H. destruct (logLevel_of_config cfg l H) as (Hd & Hw & He & Hall).
  unfold logger.Error, logger.Warn, logger.Info, logger.Debug.
  destruct Hall as [E|[E|[E|E]]]; rewrite E in *; simpl;
    repeat split; intros; try discriminate; try congruence;
    try (exfalso; intuition discriminate); intuition discriminate.
Qed.

Lemma logger_thresholds_witness :
  logger.Error unit (logger.mkColorfulLogger logger.INFO) "x" []
  = Some (logger.errorLogger, "x", []) /\
  logger.Debug unit (logger.mkColorfulLogger logger.INFO) "x" [] = None.
Proof.
  destruct (logger_thresholds unit (config.mkConfig "auth" 8080 "DEBUG" "http://web:8000")
              (logger.mkColorfulLogger logger.INFO) "x" [] eq_refl)
    as (He & _ & _ & Hd & _).
  split; [exact He | apply Hd; discriminate].
Defined.

(** X3.  [LogRequest] hands a request with a status of 400 or more to
    [Warn] and any other to [Info]: with the level "warn" only the
    requests that failed are written, and with the level "error" no
    request is written at all, a 5xx answer included. *)
Theorem LogRequest_routing (A : Type) cfg l method path ip status duration :
  logger.NewColorfulLogger true cfg = Some l ->
  match logger.LogRequest A l method path ip status duration with
  | Some (lg, line, v) =>
      v = [] /\
      (lg = logger.warnLogger /\ 400 <= status /\ config.LogLevel cfg <> "error"
       \/ lg = logger.infoLogger /\ status < 400 /\
          config.LogLevel cfg <> "warn" /\ config.LogLevel cfg <> "error")
  | None =>
      config.LogLevel cfg = "error" \/ config.LogLevel cfg = "warn" /\ status < 400
  end.
Proof.
  intros H. destruct (logLevel_of_config cfg l H) as (Hd & Hw & He & Hall).
  unfold logger.LogRequest, logger.Warn, logger.Info.
  destruct (Z.leb_spec 400 status);
    destruct Hall as [E|[E|[E|E]]]; rewrite E in *; simpl;
    try (split; [reflexivity|]);
    try (left; repeat split; trivial; intros D; intuition discriminate);
    try (right; repeat split; trivial; intros D; intuition discriminate);
    intuition.
Qed.

Lemma LogRequest_routing_witness :
  logger.LogRequest unit (logger.mkColorfulLogger logger.ERROR)
                    "POST" "/login" "10.0.0.1" 500 "1ms" = None.
Proof.
  pose proof (LogRequest_routing unit (config.mkConfig "auth" 8080 "error" "u")
                (logger.mkColorfulLogger logger.ERROR)
                "POST" "/login" "10.0.0.1" 500 "1ms" eq_refl) as H.
  destruct (logger.LogRequest unit (logger.mkColorfulLogger logger.ERROR)
              "POST" "/login" "10.0.0.1" 500 "1ms") as [[[lg line] v]|].
  - destruct H as (_ & [(_ & _ & N)|(_ & _ & _ & N)]); now destruct N.
  - reflexivity.
Defined.

(** ** The process secret *)

Lemma hex_byte (c : ascii) :
  hex.fromHexChar (hex.hextable (N_of_ascii c / 16)) = Some (N_of_ascii c / 16)%N /\
  hex.fromHexChar (hex.hextable (N_of_ascii c mod 16)) = Some (N_of_ascii c mod 16)%N /\
  hex.lower_hex_digit (hex.hextable (N_of_ascii c / 16)) = true /\
  hex.lower_hex_digit (hex.hextable (N_of_ascii c mod 16)) = true /\
  ascii_of_N (16 * (N_of_ascii c / 16) + N_of_ascii c mod 16) = c.
Proof.
  destruct c as [[] [] [] [] [] [] [] []]; vm_compute; repeat split; reflexivity.
Qed.

Lemma hex_round_trip (src : string) :
  hex.DecodeString (hex.EncodeToString src) = Some src.
Proof.
  induction src as [|c r IH]; [reflexivity|].
  destruct (hex_byte c) as (H1 & H2 & _ & _ & H5).
  cbn [hex.EncodeToString hex.DecodeString]. cbv zeta.
  now rewrite H1, H2, IH, H5.
Qed.

(** X4.  Whatever bytes [rand.Read] delivers, [generateSecretKey]
    returns two lower-case hex digits for each of them, 64 for the 32 it
    asks for, from which the bytes can be read back; so different
    random bytes give different keys.  It returns nothing only when
    [rand.Read] fails. *)
Theorem generateSecretKey_hex (random : option string) :
  match main.generateSecretKey random with
  | Some key =>
      exists bytes,
        random = Some bytes /\
        String.length key = (2 * String.length bytes)%nat /\
        Forall (fun c => hex.lower_hex_digit c = true) (list_ascii_of_string key) /\
        hex.DecodeString key = Some bytes /\
        (forall bytes', main.generateSecretKey (Some bytes') = Some key -> bytes' = bytes)
  | None => random = None
  end.
Proof.
  destruct random as [bytes|]; simpl; [|reflexivity].
  exists bytes. split; [reflexivity|]. repeat split.
  - induction bytes as [|c r IH]; simpl; [reflexivity | lia].
  - induction bytes as [|c r IH]; simpl; [constructor|].
    destruct (hex_byte c) as (_ & _ & H3 & H4 & _).
    repeat constructor; assumption.
  - apply hex_round_trip.
  - intros bytes' [= E].
    pose proof (hex_round_trip bytes') as R. rewrite E, hex_round_trip in R.
    now injection R.
Qed.

(** ** More on the gate and the handlers *)

Section Service.

Context `{JWT : jwt.Library handlers.Claims} `{BC : bcrypt.Library}.

Implicit Types (ctx : handlers.AppContext) (w : World) (c : gin.Context).

Lemma length_ToLower (s : string) : String.length (strings.ToLower s) = String.length s.
Proof. induction s as [|c s IH]; simpl; [reflexivity | now rewrite IH]. Qed.

(** X5.  When the first seven bytes of an ASCII header spell "bearer "
    in any letter case, the gate's token is the lower-cased rest of the
    header, as long as the rest; it is the rest itself whenever the
    rest has no upper-case letter to lose. *)
Theorem bearerToken_of_prefixed (p t : string) :
  strings.is_ascii (p +:+ t) ->
  strings.ToLower p = "bearer " ->
  middleware.bearerToken (p +:+ t) = strings.ToLower t /\
  String.length (middleware.bearerToken (p +:+ t)) = String.length t /\
  (strings.ToLower t = t -> middleware.bearerToken (p +:+ t) = t).
Proof.
  intros _ Hp. rewrite (bearerToken_prefixed p t Hp), length_ToLower.
  repeat split; trivial.
Qed.

(** *** [ValidateToken] *)

Lemma GetUser_frame cl username w :
  exists r w', client.GetUser cl username w = Done r w' /\
               db w' = db w /\
               calls w' = GetUserData (client.ServiceName cl) username :: calls w.
Proof.
  unfold client.GetUser, bind, http.Do.
  destruct (net w) as [|[| | | |] n]; simpl;
    try destruct (db w !! username) as [rec|]; simpl;
    try destruct (String.eqb (models.UserData.Login rec) EmptyString);
    eauto 10.
Qed.

Lemma ValidateToken_frame ctx tokenString w :
  match handlers.ValidateToken ctx tokenString w with
  | Done _ w' | Panicked w' =>
      db w' = db w /\
      (calls w' = calls w \/
       exists username,
         calls w' = GetUserData (config.ServiceName (handlers.Config ctx)) username
                    :: calls w)
  end.
Proof.
  destruct (Nat.le_gt_cases 10 (String.length tokenString)) as [Hlen|Hlen].
  2:{ rewrite ValidateToken_short by lia. auto. }
  destruct (token.verified ctx tokenString) as [claims|] eqn:V.
  - rewrite (ValidateToken_verified _ _ _ w V).
    destruct (negb _ || negb _); [rewrite db_advance, calls_advance; auto|].
    destruct (String.eqb _ _); [rewrite db_advance, calls_advance; auto|].
    destruct (_ <? 0); [rewrite db_advance, calls_advance; auto|].
    destruct (jwt.ExpiresAt _) as [exp|]; [|rewrite !db_advance, !calls_advance; auto].
    destruct (exp <? _); [rewrite !db_advance, !calls_advance; auto|].
    destruct (GetUser_frame (client.NewAPIClient (handlers.Config ctx))
                (handlers.Username claims) (time.advance (time.advance w)))
      as (r & w' & -> & Hdb & Hc).
    rewrite !db_advance in Hdb. rewrite !calls_advance in Hc. simpl in Hc.
    destruct r as [e|user]; [eauto|].
    destruct (negb _); eauto.
  - destruct (parse_unverified ctx tokenString w Hlen V) as [e He].
    unfold handlers.ValidateToken, bind. rewrite He. simpl. auto.
Qed.

(** X6.  [ValidateToken] only reads: whatever it returns, and also
    when it panics, the store is as it was, and it has sent the store
    either nothing or one lookup. *)
Theorem validate_read_only ctx tokenString w :
  match handlers.ValidateToken ctx tokenString w with
  | Done _ w' | Panicked w' =>
      db w' = db w /\
      (calls w' = calls w \/
       exists username,
         calls w' = GetUserData (config.ServiceName (handlers.Config ctx)) username
                    :: calls w)
  end.
Proof. apply ValidateToken_frame. Qed.

(** X7.  A token that [ValidateToken] accepts has passed every check:
    its structure and signature hold under the configured method and
    the process secret, its identity is not empty and its tenant not
    negative, both readings of the clock are within its validity, and
    the store, reached in good health, holds this very string under
    the token's identity in a record with a login.  The claims returned
    are the ones the token carries. *)
Theorem validate_sound ctx tokenString w claims w' :
  handlers.ValidateToken ctx tokenString w = Done (inr claims) w' ->
  token.verified ctx tokenString = Some claims /\
  handlers.Username claims <> EmptyString /\ 0 <= handlers.AgencyID claims /\
  jwt.verifyNotBefore claims (now w) = true /\
  (exists exp, jwt.ExpiresAt (handlers.Registered claims) = Some exp /\
               now w < exp /\ now (time.advance w) <= exp) /\
  (exists rec, db w !! handlers.Username claims = Some rec /\
               models.UserData.Login rec <> EmptyString /\
               models.UserData.JWTToken rec = tokenString) /\
  token.healthy w.
Proof.
  intros H. apply ValidateToken_inv in H as (V & Hu & Ha & Hn & He & Hr & Hh & _).
  repeat split; assumption.
Qed.

(** X8.  A token that passes the parser and carries an empty identity
    is turned down with the missing-username error, and one with an
    identity and a negative tenant id with the missing-agency error;
    in both cases after the one reading of the clock that the parser
    makes and before the store is asked. *)
Theorem validate_checks_identity ctx tokenString claims w :
  token.verified ctx tokenString = Some claims ->
  jwt.verifyExpiresAt claims (now w) = true ->
  jwt.verifyNotBefore claims (now w) = true ->
  (handlers.Username claims = EmptyString ->
   handlers.ValidateToken ctx tokenString w = Done (inl ErrNoUsername) (time.advance w)) /\
  (handlers.Username claims <> EmptyString -> handlers.AgencyID claims < 0 ->
   handlers.ValidateToken ctx tokenString w = Done (inl ErrNoAgency) (time.advance w)).
Proof.
  intros V He Hn. rewrite (ValidateToken_verified _ _ _ w V), He, Hn. simpl.
  split.
  - intros ->. reflexivity.
  - intros Hu Ha.
    destruct (String.eqb_spec (handlers.Username claims) EmptyString); [contradiction|].
    destruct (Z.ltb_spec (handlers.AgencyID claims) 0); [reflexivity | lia].
Qed.

(** X9.  A token that passes the parser, names an identity and a
    tenant, and has no expiry claim makes [ValidateToken] panic: the
    library takes the claim as optional, and the handler's own expiry
    check then dereferences the nil [ExpiresAt] after it has read the
    clock.  The store is not asked. *)
Theorem validate_without_expiry_panics ctx tokenString claims w :
  token.verified ctx tokenString = Some claims ->
  jwt.ExpiresAt (handlers.Registered claims) = None ->
  jwt.verifyNotBefore claims (now w) = true ->
  handlers.Username claims <> EmptyString -> 0 <= handlers.AgencyID claims ->
  handlers.ValidateToken ctx tokenString w = Panicked (time.advance (time.advance w)).
Proof.
  intros V He Hn Hu Ha. rewrite (ValidateToken_verified _ _ _ w V).
  unfold jwt.verifyExpiresAt; simpl. rewrite He, Hn. simpl.
  destruct (String.eqb_spec (handlers.Username claims) EmptyString); [contradiction|].
  destruct (Z.ltb_spec (handlers.AgencyID claims) 0); [lia | reflexivity].
Qed.

(** X21.  A string of ten bytes or more that does not consist of three
    dot-separated segments is turned down as malformed by the parser,
    with the clock not read and the store not asked. *)
Theorem garbled_input_is_malformed ctx tokenString w :
  token.garbled tokenString ->
  (10 <= String.length tokenString)%nat ->
  handlers.ValidateToken ctx tokenString w
  = Done (inl (ErrInvalidToken (ErrJWT jwt.ErrTokenMalformed))) w.
Proof. apply garbled_long_is_malformed. Qed.

(** *** The gate *)

Lemma accepted_is_long ctx tokenString w claims w' :
  handlers.ValidateToken ctx tokenString w = Done (inr claims) w' ->
  (10 <= String.length tokenString)%nat.
Proof.
  intros H. destruct (Nat.le_gt_cases 10 (String.length tokenString)); [trivial|].
  rewrite ValidateToken_short in H by lia. discriminate.
Qed.

(** X10.  Unless [ValidateToken] accepts the token of the header, the
    gate does not run the handler behind it: its outcome is the same
    whatever the handler is, and when it returns, the request is
    aborted with a 401 answer, no key is bound, and the store is as it
    was.  A missing header is one such case. *)
Theorem gate_closed ctx next next' c w :
  (forall claims w',
     handlers.ValidateToken ctx (middleware.bearerToken (gin.Authorization c)) w
     <> Done (inr claims) w') ->
  middleware.AuthMiddleware ctx next c w = middleware.AuthMiddleware ctx next' c w /\
  forall c1 w1,
    middleware.AuthMiddleware ctx next c w = Done c1 w1 ->
    gin.Aborted c1 = true /\
    (exists msg, gin.Written c1 = Some (http.StatusUnauthorized, gin.H_error msg)) /\
    gin.Keys c1 = gin.Keys c /\ db w1 = db w.
Proof.
  intros Hno. unfold middleware.AuthMiddleware, bind.
  destruct (String.eqb (gin.Authorization c) EmptyString).
  { split; [reflexivity|]. intros c1 w1 [= <- <-]. simpl. eauto. }
  destruct (strings.slice_to _ 10); [|split; [reflexivity | discriminate]].
  pose proof (ValidateToken_frame ctx (middleware.bearerToken (gin.Authorization c)) w) as F.
  destruct (handlers.ValidateToken ctx _ w) as [[e|claims] w'|w'] eqn:E.
  - split; [reflexivity|]. intros c1 w1 [= <- <-]. simpl. destruct F. eauto.
  - now destruct (Hno claims w').
  - split; [reflexivity | discriminate].
Qed.

(** X11.  When [ValidateToken] accepts the token of the header, the
    verify route answers 200 with the identity and the tenant id of the
    token's claims and the valid flag set, without aborting, and leaves
    the world as [ValidateToken] left it, the store unchanged. *)
Theorem verify_route_echoes ctx header creds w claims w' :
  handlers.ValidateToken ctx (middleware.bearerToken header) w = Done (inr claims) w' ->
  exists c1,
    main.route_token_verify ctx (gin.request header creds) w = Done c1 w' /\
    gin.Written c1
    = Some (http.StatusOK,
            gin.TokenVerifyResponse true (handlers.Username claims)
                                    (handlers.AgencyID claims)) /\
    gin.Aborted c1 = false /\ db w' = db w.
Proof.
  intros H. pose proof (accepted_is_long _ _ _ _ _ H) as Hlen.
  pose proof (ValidateToken_frame ctx (middleware.bearerToken header) w) as F.
  rewrite H in F. destruct F as [Hdb _].
  unfold main.route_token_verify, middleware.AuthMiddleware, bind. simpl.
  destruct (String.eqb_spec header EmptyString) as [->|_].
  { simpl in Hlen. lia. }
  destruct (slice_to_long _ _ Hlen) as [x ->]. rewrite H.
  unfold handlers.VerifyToken, ret.
  destruct (gate_keys (gin.request header creds) (handlers.Username claims)
              (middleware.bearerToken header) (handlers.AgencyID claims))
    as (Ku & Ka & _).
  cbv zeta in Ku, Ka. rewrite Ku, Ka.
  eexists. split; [reflexivity|]. simpl. auto.
Qed.


(** *** Issuing *)

Lemma Do_absent service username w :
  token.healthy w -> db w !! username = None ->
  http.Do (GetUserData service username) w
  = Done (http.Response http.StatusNotFound None)
         (token.asked (GetUserData service username) w).
Proof.
  unfold token.healthy, http.Do, token.asked. intros Hn Hdb.
  destruct (net w) as [|[| | | |] n]; try contradiction; simpl; now rewrite Hdb.
Qed.

(** X12.  For a request that binds to credentials whose username
    reaches the store as written ([url.plain]) and a store that is
    reached, a login that fails on the credentials costs one lookup and
    nothing else, with nothing signed or written; [Login] then tells the
    client whether the user is unknown (no record, or a record without
    a login) or the password wrong, whereas [CreateToken] gives one and
    the same answer in all three cases. *)
Theorem failed_login_answers ctx c creds w :
  gin.ShouldBind c = Some creds ->
  url.plain (models.User.Username creds) ->
  token.healthy w ->
  let asked :=
    token.asked (GetUserData (config.ServiceName (handlers.Config ctx))
                             (models.User.Username creds)) w in
  let unknown :=
    db w !! models.User.Username creds = None \/
    exists rec, db w !! models.User.Username creds = Some rec /\
                models.UserData.Login rec = EmptyString in
  let mismatch :=
    exists rec, db w !! models.User.Username creds = Some rec /\
                models.UserData.Login rec <> EmptyString /\
                utils.VerifyPassword (models.User.Password creds)
                                     (models.UserData.Password rec) = false in
  (unknown ->
   handlers.Login ctx c w
   = Done (gin.JSON c http.StatusUnauthorized (gin.ErrorResponse gin.UserNotFound)) asked) /\
  (mismatch ->
   handlers.Login ctx c w
   = Done (gin.JSON c http.StatusUnauthorized (gin.ErrorResponse gin.WrongPassword)) asked) /\
  (unknown \/ mismatch ->
   handlers.CreateToken ctx c w
   = Done (gin.JSON c http.StatusUnauthorized
                    (gin.ErrorResponse gin.WrongUsernameOrPassword)) asked).
Proof.
  intros Hb _ Hh asked unknown mismatch.
  assert (U : unknown ->
              exists e, client.GetUser (client.NewAPIClient (handlers.Config ctx))
                                       (models.User.Username creds) w
                        = Done (inl e) asked).
  { intros [Hdb|(rec & Hdb & Hl)].
    - unfold client.GetUser, bind. rewrite (Do_absent _ _ _ Hh Hdb). simpl. eauto.
    - rewrite (GetUser_empty_login _ _ _ rec Hh Hdb Hl). eauto. }
  assert (M : mismatch ->
              exists rec, client.GetUser (client.NewAPIClient (handlers.Config ctx))
                                         (models.User.Username creds) w
                          = Done (inr rec) asked /\
                          utils.VerifyPassword (models.User.Password creds)
                                               (models.UserData.Password rec) = false).
  { intros (rec & Hdb & Hl & Hp). exists rec.
    rewrite (GetUser_found _ _ _ rec Hh Hdb Hl). auto. }
  unfold handlers.Login, handlers.CreateToken, bind. rewrite Hb.
  repeat split.
  - intros H. destruct (U H) as [e ->]. reflexivity.
  - intros H. destruct (M H) as (rec & -> & ->). reflexivity.
  - intros [H|H].
    + destruct (U H) as [e ->]. reflexivity.
    + destruct (M H) as (rec & -> & ->). reflexivity.
Qed.

Lemma issue_routes_agree ctx c w :
  match handlers.Login ctx c w, handlers.CreateToken ctx c w with
  | Done c1 w1, Done c2 w2 =>
      w1 = w2 /\
      forall tok ty,
        gin.Written c1 = Some (http.StatusOK, gin.TokenResponse tok ty) <->
        gin.Written c2 = Some (http.StatusOK, gin.TokenResponse tok ty)
  | Panicked w1, Panicked w2 => w1 = w2
  | _, _ => False
  end.
Proof.
  unfold handlers.Login, handlers.CreateToken, bind.
  destruct (gin.ShouldBind c) as [creds|];
    [|simpl; split; [reflexivity | split; discriminate]].
  destruct (client.GetUser _ _ w) as [[e|user] wg|wg];
    [simpl; split; [reflexivity | split; discriminate] | | reflexivity].
  destruct (negb _);
    [simpl; split; [reflexivity | split; discriminate]|].
  destruct (handlers.createToken _ _ _ wg) as [[e|token] wc|wc];
    [simpl; split; [reflexivity | split; discriminate] | | reflexivity].
  destruct (client.UpdateToken _ _ _ wc) as [[e|] wu|wu];
    [simpl; split; [reflexivity | split; discriminate] | | reflexivity].
  simpl. split; [reflexivity | tauto].
Qed.

(** X13.  On a request with a JSON body sent as application/json, which
    [ShouldBindJSON] and [ShouldBind] decode alike, [Login] and
    [CreateToken] do the same to the world and agree on success: both
    panic or both return, in the same world, and the one answers 200
    with a token exactly when the other answers 200 with that token.
    On a body under another Content-Type that is no JSON, a form for
    one, [Login] answers 400 and leaves the world alone, whatever
    [CreateToken] makes of the same request. *)
Theorem Login_and_CreateToken_agree ctx header i w :
  (gin.IsJSON i = true ->
   match handlers.Login ctx (gin.boundJSON header i) w,
         handlers.CreateToken ctx (gin.boundByContentType header i) w with
   | Done c1 w1, Done c2 w2 =>
       w1 = w2 /\
       forall tok ty,
         gin.Written c1 = Some (http.StatusOK, gin.TokenResponse tok ty) <->
         gin.Written c2 = Some (http.StatusOK, gin.TokenResponse tok ty)
   | Panicked w1, Panicked w2 => w1 = w2
   | _, _ => False
   end) /\
  (gin.IsJSON i = false -> gin.AsJSON i = None ->
   handlers.Login ctx (gin.boundJSON header i) w
   = Done (gin.JSON (gin.boundJSON header i) http.StatusBadRequest
                    (gin.ErrorResponse gin.BadRequestData)) w).
Proof.
  split.
  - intros J. unfold gin.boundByContentType. rewrite J.
    apply (issue_routes_agree ctx (gin.boundJSON header i) w).
  - intros _ N. unfold handlers.Login, gin.boundJSON, gin.ShouldBind. simpl.
    now rewrite N.
Qed.

Lemma UpdateToken_frame cl username tok w r w' :
  client.UpdateToken cl username tok w = Done r w' ->
  (forall st, r = Some (ErrAPI st) -> db w' = db w) /\
  (db w' = db w \/
   exists rec, db w !! username = Some rec /\
               db w' = <[username := http.set_token rec tok]> (db w)) /\
  (forall k, k <> username -> db w' !! k = db w !! k).
Proof.
  unfold client.UpdateToken, bind, http.Do. intros H.
  destruct (net w) as [|[| | | |] n]; simpl in H;
    try destruct (db w !! username) as [rec|] eqn:E; simpl in H;
    injection H as <- <-; simpl;
    (split; [try congruence; try reflexivity
            | split; [first [now left | right; eauto]
                     | intros k Hk; rewrite ?lookup_insert_ne; congruence]]).
Qed.

Lemma UpdateToken_returns cl username tok w :
  exists r w', client.UpdateToken cl username tok w = Done r w'.
Proof.
  unfold client.UpdateToken, bind, http.Do.
  destruct (net w) as [|[| | | |] n]; simpl;
    try destruct (db w !! username) as [rec|]; simpl; eauto.
Qed.

Lemma GetUser_db cl username w r w' :
  client.GetUser cl username w = Done r w' -> db w' = db w.
Proof.
  intros H. destruct (GetUser_frame cl username w) as (r0 & w0 & E & Hdb & _).
  rewrite E in H. now injection H as _ <-.
Qed.

Lemma createToken_db ctx username agencyID w :
  match handlers.createToken ctx username agencyID w with
  | Done _ w' | Panicked w' => db w' = db w
  end.
Proof.
  unfold handlers.createToken, bind, time.Now, panic, ret.
  destruct (jwt.GetSigningMethod _); [|now rewrite !db_advance].
  destruct (jwt.SignedString _ _ _); now rewrite !db_advance.
Qed.

(** X14.  [Login] leaves the store as it was unless it answers 200
    with a token or 500 with the text for a failed token update, and
    also when it panics.  Whatever it answers, the store differs from
    the one before at most in the token field of the record filed
    under the username of the request.  After the 500 that record may
    already hold the token that was minted and not returned: the store
    can have applied the update while its answer got lost. *)
Theorem Login_touches_one_record ctx c w :
  match handlers.Login ctx c w with
  | Done c1 w1 =>
      ((forall tok ty,
          gin.Written c1 <> Some (http.StatusOK, gin.TokenResponse tok ty)) ->
       gin.Written c1 <> Some (http.StatusInternalServerError,
                               gin.ErrorResponse gin.TokenUpdateFailed) ->
       db w1 = db w) /\
      (forall creds,
         gin.ShouldBind c = Some creds ->
         (forall k, k <> models.User.Username creds -> db w1 !! k = db w !! k) /\
         (db w1 = db w \/
          exists rec tok,
            db w !! models.User.Username creds = Some rec /\
            db w1 = <[models.User.Username creds := http.set_token rec tok]> (db w)))
  | Panicked w1 => db w1 = db w
  end.
Proof.
  unfold handlers.Login, bind.
  destruct (gin.ShouldBind c) as [creds|]; [|simpl; split; [reflexivity | discriminate]].
  destruct (client.GetUser _ _ w) as [[e|user] wg|wg] eqn:G.
  - simpl. pose proof (GetUser_db _ _ _ _ _ G) as ->. auto.
  - pose proof (GetUser_db _ _ _ _ _ G) as Hg.
    destruct (negb _); [simpl; rewrite Hg; auto|].
    pose proof (createToken_db ctx (models.UserData.Login user)
                  (models.UserData.AgencyID user) wg) as Hc.
    destruct (handlers.createToken _ _ _ wg) as [[e|token] wc|wc];
      [simpl; rewrite Hc, Hg; auto | | congruence].
    destruct (client.UpdateToken _ _ _ wc) as [e wu|wu] eqn:U.
    + apply UpdateToken_frame in U as (_ & U1 & U2).
      rewrite Hc, Hg in U1.
      assert (F : forall creds' : models.User.t,
                 Some creds = Some creds' ->
                 (forall k, k <> models.User.Username creds' -> db wu !! k = db w !! k) /\
                 (db wu = db w \/
                  exists rec tok,
                    db w !! models.User.Username creds' = Some rec /\
                    db wu = <[models.User.Username creds' := http.set_token rec tok]> (db w))).
      { intros creds' [= <-]. split.
        - intros k Hk. now rewrite (U2 k Hk), Hc, Hg.
        - destruct U1 as [U1|(rec & U1 & U1')]; [now left | right; eauto]. }
      destruct e as [e|]; simpl; (split; [|exact F]).
      * intros _ H. now destruct H.
      * intros H. now destruct (H token "bearer").
    + destruct (UpdateToken_returns (client.NewAPIClient (handlers.Config ctx))
                  (models.User.Username creds) token wc) as (r0 & w0 & E).
      congruence.
  - destruct (GetUser_frame (client.NewAPIClient (handlers.Config ctx))
                (models.User.Username creds) w) as (r0 & w0 & E & _).
    congruence.
Qed.

(** X15.  After a 200 answer of [Login] or [CreateToken] the record
    filed under the username of the request is the one that was there
    before with the returned token as its token and nothing else
    changed. *)
Theorem returned_token_is_on_file ctx c w c1 w1 tok :
  handlers.Login ctx c w = Done c1 w1 \/ handlers.CreateToken ctx c w = Done c1 w1 ->
  gin.Written c1 = Some (http.StatusOK, gin.TokenResponse tok "bearer") ->
  exists creds rec,
    gin.ShouldBind c = Some creds /\
    db w !! models.User.Username creds = Some rec /\
    db w1 !! models.User.Username creds
    = Some (models.UserData.mk (models.UserData.Login rec) (models.UserData.Password rec)
                               (models.UserData.AgencyID rec) tok).
Proof.
  intros H Hw.
  assert (I : token.issued ctx c w w1 tok).
  { destruct H as [H|H]; [eapply Login_inv | eapply CreateToken_inv]; eauto. }
  destruct I as (creds & rec & Hb & Hdb & _ & _ & _ & _ & Hdb1 & _).
  exists creds, rec. repeat split; trivial.
  rewrite Hdb1. apply lookup_insert_eq.
Qed.

Lemma Truncate_bounds (t : Z) :
  jwt.NewNumericDate t <= t < jwt.NewNumericDate t + time.Second /\
  jwt.NewNumericDate t mod time.Second = 0.
Proof.
  unfold jwt.NewNumericDate, time.Truncate, jwt.TimePrecision, time.Second.
  pose proof (Z.div_mod t 1000000000 ltac:(lia)).
  pose proof (Z.mod_pos_bound t 1000000000 ltac:(lia)).
  split; [lia | apply Z.mod_mul; lia].
Qed.

(** X16.  With a lifetime of a second or more, the expiry that
    [createToken] signs into a token is a whole second that lies after
    the clock reading it was computed from and at most the lifetime
    after it; with a lifetime of whole seconds, as the seven days of
    [main], it is the second of that reading plus the lifetime.  The
    token has no not-before claim, and its issued-at claim is the
    second of the next reading. *)
Theorem createToken_expiry ctx username agencyID w tokenString w' :
  handlers.createToken ctx username agencyID w = Done (inr tokenString) w' ->
  time.Second <= handlers.TokenTTL ctx ->
  exists exp,
    jwt.SignedString (handlers.Algorithm ctx)
      (handlers.mkClaims username agencyID
         (jwt.mkRegisteredClaims (Some exp) None
            (Some (jwt.NewNumericDate (now (time.advance w))))))
      (handlers.SecretKey ctx) = Some tokenString /\
    now w < exp <= now w + handlers.TokenTTL ctx /\
    exp mod time.Second = 0 /\
    (handlers.TokenTTL ctx mod time.Second = 0 ->
     exp = jwt.NewNumericDate (now w) + handlers.TokenTTL ctx).
Proof.
  intros H Httl. apply createToken_inv in H as (_ & S & _).
  exists (jwt.NewNumericDate (now w + handlers.TokenTTL ctx)).
  split; [exact S|].
  destruct (Truncate_bounds (now w + handlers.TokenTTL ctx)) as [B M].
  repeat split; try lia; trivial.
  intros Hm. unfold jwt.NewNumericDate, time.Truncate, jwt.TimePrecision in *.
  unfold time.Second in *.
  apply Z.mod_divide in Hm; [|lia]. destruct Hm as [k ->].
  rewrite Z.div_add by lia. lia.
Qed.

(** X17.  With encoders that are faithful on its claims, a token that
    [createToken] has made passes [parseAndValidateToken] at every
    reading of the clock before its expiry and yields the identity and
    the tenant id it was made for. *)
Theorem issued_token_parses ctx username agencyID w tokenString w' w2 :
  handlers.createToken ctx username agencyID w = Done (inr tokenString) w' ->
  token.faithful (handlers.Algorithm ctx)
    (handlers.newClaims username agencyID
       (now w + handlers.TokenTTL ctx) (now (time.advance w)))
    (handlers.SecretKey ctx) ->
  now w2 < jwt.NewNumericDate (now w + handlers.TokenTTL ctx) ->
  exists claims,
    handlers.parseAndValidateToken ctx tokenString w2
    = Done (inr claims) (time.advance w2) /\
    handlers.Username claims = username /\ handlers.AgencyID claims = agencyID.
Proof.
  intros H F Hlt. apply createToken_inv in H as (G & S & _).
  pose proof (signed_verified _ _ _ S G F) as V.
  rewrite (parse_verified _ _ _ w2 V).
  unfold jwt.verifyExpiresAt, jwt.verifyNotBefore; simpl.
  destruct (Z.ltb_spec (now w2) (jwt.NewNumericDate (now w + handlers.TokenTTL ctx)));
    [|lia].
  simpl. eexists. split; [reflexivity|]. split; reflexivity.
Qed.

(** *** The client and the store *)

(** X18.  For a username that reaches the store as written
    ([url.plain]), a token write that the client reports as done is
    what the next lookup of that identity returns, with login, password
    hash and tenant id as before, and a token delete that it reports as
    done leaves the empty token there; the records of other identities
    are not touched by either. *)
Theorem stored_token_round_trip cl username tok w rec :
  url.plain username ->
  db w !! username = Some rec ->
  models.UserData.Login rec <> EmptyString ->
  (forall w1,
     client.UpdateToken cl username tok w = Done None w1 ->
     (token.healthy w1 ->
      exists w2, client.GetUser cl username w1
                 = Done (inr (models.UserData.mk (models.UserData.Login rec)
                                (models.UserData.Password rec)
                                (models.UserData.AgencyID rec) tok)) w2) /\
     forall k, k <> username -> db w1 !! k = db w !! k) /\
  (forall w1,
     client.DeleteToken cl username tok w = Done None w1 ->
     (token.healthy w1 ->
      exists w2, client.GetUser cl username w1
                 = Done (inr (models.UserData.mk (models.UserData.Login rec)
                                (models.UserData.Password rec)
                                (models.UserData.AgencyID rec) EmptyString)) w2) /\
     forall k, k <> username -> db w1 !! k = db w !! k).
Proof.
  intros _ Hdb Hl. split; intros w1 H.
  - apply UpdateToken_inv in H as (rec' & Hdb' & Hdb1 & _).
    rewrite Hdb in Hdb'. injection Hdb' as <-.
    split.
    + intros Hh. eexists.
      apply (GetUser_found cl username w1 (http.set_token rec tok)); trivial.
      rewrite Hdb1. apply lookup_insert_eq.
    + intros k Hk. rewrite Hdb1. now apply lookup_insert_ne.
  - apply DeleteToken_inv in H as (rec' & Hdb' & Hdb1).
    rewrite Hdb in Hdb'. injection Hdb' as <-.
    split.
    + intros Hh. eexists.
      apply (GetUser_found cl username w1 (http.set_token rec EmptyString)); trivial.
      rewrite Hdb1. apply lookup_insert_eq.
    + intros k Hk. rewrite Hdb1. now apply lookup_insert_ne.
Qed.

(** *** The gated routes *)

Ltac not_ok H Hw :=
  injection H as <- <-;
  cbv [gin.Written gin.JSON http.StatusOK http.StatusBadRequest
       http.StatusUnauthorized http.StatusInternalServerError] in Hw;
  discriminate Hw.

Lemma DeleteToken_frame cl username tok w :
  exists r w', client.DeleteToken cl username tok w = Done r w' /\
               (db w' = db w \/
                exists rec, db w !! username = Some rec /\
                            db w' = <[username := http.set_token rec EmptyString]> (db w)) /\
               calls w' = TokenDelete (models.LocalAPIRequest.mk
                                         (client.ServiceName cl) username tok) :: calls w.
Proof.
  unfold client.DeleteToken, bind, http.Do.
  destruct (net w) as [|[| | | |] n]; simpl;
    try destruct (db w !! username) as [rec|] eqn:E; simpl;
    eexists; eexists; (split; [reflexivity|]); simpl;
    (split; [first [now left | right; eauto] | reflexivity]).
Qed.

(** X19.  Whenever the logout route returns, one of three things has
    happened.  It has answered 200, having sent the store one lookup
    and then one delete that names the identity of the token and
    carries the token presented.  Or it has answered 500 with the text
    for a failed delete after the same two exchanges, and the store is
    as it was or differs in that the token field of the identity's
    record is now empty: the store can have cleared it while its answer
    got lost, so that the token is revoked although the client was told
    of a failure.  Or it has answered something else and the store is
    as it was. *)
Theorem logout_route_effects ctx header creds w c1 w1 :
  main.route_logout ctx (gin.request header creds) w = Done c1 w1 ->
  let sent claims :=
    calls w1
    = TokenDelete (models.LocalAPIRequest.mk
                     (config.ServiceName (handlers.Config ctx))
                     (handlers.Username claims) (middleware.bearerToken header))
      :: GetUserData (config.ServiceName (handlers.Config ctx)) (handlers.Username claims)
      :: calls w in
  (exists claims,
     token.verified ctx (middleware.bearerToken header) = Some claims /\
     gin.Written c1 = Some (http.StatusOK, gin.Message gin.LoggedOut) /\
     sent claims) \/
  (exists claims,
     token.verified ctx (middleware.bearerToken header) = Some claims /\
     gin.Written c1 = Some (http.StatusInternalServerError,
                            gin.ErrorResponse gin.TokenDeleteFailed) /\
     sent claims /\
     (db w1 = db w \/
      exists rec,
        db w !! handlers.Username claims = Some rec /\
        db w1 = <[handlers.Username claims := http.set_token rec EmptyString]> (db w))) \/
  (gin.Written c1 <> Some (http.StatusOK, gin.Message gin.LoggedOut) /\
   gin.Written c1 <> Some (http.StatusInternalServerError,
                           gin.ErrorResponse gin.TokenDeleteFailed) /\
   db w1 = db w).
Proof.
  unfold main.route_logout, middleware.AuthMiddleware, bind. simpl. intros H.
  destruct (String.eqb header EmptyString);
    [injection H as <- <-; right; right; repeat split; discriminate|].
  destruct (strings.slice_to _ 10); [|discriminate].
  pose proof (ValidateToken_frame ctx (middleware.bearerToken header) w) as F.
  destruct (handlers.ValidateToken ctx _ w) as [[e|claims] w'|w'] eqn:E;
    [injection H as <- <-; right; right;
     split; [discriminate | split; [discriminate | tauto]] | | discriminate].
  destruct F as [Hdb _].
  apply ValidateToken_inv in E as (V & _ & _ & _ & _ & _ & _ & ->).
  unfold handlers.Logout, bind in H.
  destruct (gate_keys (gin.request header creds) (handlers.Username claims)
              (middleware.bearerToken header) (handlers.AgencyID claims))
    as (Ku & _ & Kt).
  cbv zeta in Ku, Kt. rewrite Ku, Kt in H.
  destruct (DeleteToken_frame (client.NewAPIClient (handlers.Config ctx))
              (handlers.Username claims) (middleware.bearerToken header)
              (token.asked (GetUserData (config.ServiceName (handlers.Config ctx))
                                        (handlers.Username claims))
                           (time.advance (time.advance w))))
    as (r & wd & D & Hstore & Hcalls).
  rewrite D in H. simpl in Hcalls. rewrite !calls_advance in Hcalls.
  rewrite db_asked, !db_advance in Hstore.
  destruct r as [e|]; injection H as <- <-.
  - right. left. exists claims. auto.
  - left. exists claims. auto.
Qed.

(** X20.  A token that the refresh route returns is signed from the
    identity and the tenant id of the token that was presented, at the
    third and fourth readings of the clock of the request; the tenant
    id of the record in the store is not looked at. *)
Theorem refresh_copies_claims ctx header creds w c1 w1 newToken :
  main.route_token_refresh ctx (gin.request header creds) w = Done c1 w1 ->
  gin.Written c1 = Some (http.StatusOK, gin.TokenResponse newToken "bearer") ->
  exists claims,
    token.verified ctx (middleware.bearerToken header) = Some claims /\
    jwt.SignedString (handlers.Algorithm ctx)
      (handlers.newClaims (handlers.Username claims) (handlers.AgencyID claims)
         (time.reading 2 w + handlers.TokenTTL ctx) (time.reading 3 w))
      (handlers.SecretKey ctx) = Some newToken /\
    exists rec, db w1 !! handlers.Username claims = Some rec /\
                models.UserData.JWTToken rec = newToken.
Proof.
  intros R Hw. unfold main.route_token_refresh in R.
  destruct (AuthMiddleware_inv _ _ _ _ _ _ _ _ R Hw) as (claims & w' & Hv & L).
  apply ValidateToken_inv in Hv as (V & _ & _ & _ & _ & _ & _ & ->).
  unfold handlers.RefreshToken, bind in L.
  destruct (gate_keys (gin.request header creds) (handlers.Username claims)
              (middleware.bearerToken header) (handlers.AgencyID claims))
    as (Ku & Ka & _).
  cbv zeta in Ku, Ka. rewrite Ku, Ka in L.
  destruct (handlers.createToken _ _ _ _) as [[e|t] wc|wc] eqn:M;
    [not_ok L Hw | | discriminate].
  destruct (client.UpdateToken _ _ _ _) as [[e|] wu|wu] eqn:U;
    [not_ok L Hw | | discriminate].
  injection L as <- ->. simpl in Hw. injection Hw as ->.
  apply createToken_inv in M as (_ & S & ->).
  apply UpdateToken_inv in U as (rec & _ & Hdb1 & _).
  rewrite advance_asked in S. simpl in S.
  exists claims. split; [exact V|]. split; [exact S|].
  exists (http.set_token rec newToken). split; [|reflexivity].
  rewrite Hdb1. apply lookup_insert_eq.
Qed.

End Service.

(** ** These facts at work on the sample store *)

Lemma bearerToken_of_prefixed_witness :
  middleware.bearerToken ("BeArEr " +:+ "abc.def.ghi") = strings.ToLower "abc.def.ghi" /\
  String.length (middleware.bearerToken ("BeArEr " +:+ "abc.def.ghi"))
  = String.length "abc.def.ghi" /\
  (strings.ToLower "abc.def.ghi" = "abc.def.ghi" ->
   middleware.bearerToken ("BeArEr " +:+ "abc.def.ghi") = "abc.def.ghi").
Proof.
  apply (bearerToken_of_prefixed "BeArEr " "abc.def.ghi").
  - unfold strings.is_ascii. vm_compute. repeat constructor.
  - reflexivity.
Defined.

Lemma validate_sound_witness :
  @token.verified sample.JWT sample.ctx sample.tok = Some sample.claims0 /\
  handlers.Username sample.claims0 <> EmptyString.
Proof.
  destruct (validate_sound (JWT := sample.JWT) sample.ctx sample.tok
              (sample.after sample.login) sample.claims0
              (sample.after (@handlers.ValidateToken sample.JWT sample.ctx sample.tok
                               (sample.after sample.login))))
    as (V & Hu & _).
  - run.
  - split; assumption.
Defined.

Lemma validate_checks_identity_witness :
  @handlers.ValidateToken sample.JWT sample.ctx scenario.tok_anonymous
                          (sample.world sample.t0)
  = Done (inl ErrNoUsername) (time.advance (sample.world sample.t0)) /\
  @handlers.ValidateToken sample.JWT sample.ctx scenario.tok_negative
                          (sample.world sample.t0)
  = Done (inl ErrNoAgency) (time.advance (sample.world sample.t0)).
Proof.
  split.
  - refine (proj1 (validate_checks_identity (JWT := sample.JWT) sample.ctx
                     scenario.tok_anonymous scenario.anonymous (sample.world sample.t0)
                     _ _ _) _); run.
  - refine (proj2 (validate_checks_identity (JWT := sample.JWT) sample.ctx
                     scenario.tok_negative scenario.negative (sample.world sample.t0)
                     _ _ _) _ _); run.
Defined.

Lemma validate_without_expiry_panics_witness :
  @handlers.ValidateToken sample.JWT sample.ctx scenario.tok_no_exp (sample.world sample.t0)
  = Panicked (time.advance (time.advance (sample.world sample.t0))).
Proof.
  apply (validate_without_expiry_panics (JWT := sample.JWT) sample.ctx
           scenario.tok_no_exp scenario.no_exp); run.
Defined.

Lemma gate_closed_witness :
  @middleware.AuthMiddleware sample.JWT sample.ctx (@handlers.Logout sample.ctx)
                             sample.presented (sample.world sample.t0)
  = @middleware.AuthMiddleware sample.JWT sample.ctx ret
                               sample.presented (sample.world sample.t0).
Proof.
  refine (proj1 (gate_closed (JWT := sample.JWT) sample.ctx _ _ sample.presented
                   (sample.world sample.t0) _)).
  intros claims w' H. vm_compute in H. discriminate H.
Defined.

Lemma verify_route_echoes_witness :
  exists c1,
    @main.route_token_verify sample.JWT sample.ctx (gin.request sample.tok None)
                             (sample.after sample.login)
    = Done c1 (sample.after scenario.verify) /\
    gin.Written c1 = Some (http.StatusOK, gin.TokenVerifyResponse true "alice" 7) /\
    gin.Aborted c1 = false /\
    db (sample.after scenario.verify) = db (sample.after sample.login).
Proof.
  apply (verify_route_echoes (JWT := sample.JWT) sample.ctx sample.tok None
           (sample.after sample.login) sample.claims0 (sample.after scenario.verify)).
  run.
Defined.

Lemma failed_login_answers_witness :
  @handlers.Login sample.JWT sample.BC sample.ctx (sample.credentials "alice" "guess")
                  (sample.world sample.t0)
  = Done (gin.JSON (sample.credentials "alice" "guess") http.StatusUnauthorized
                   (gin.ErrorResponse gin.WrongPassword))
         (token.asked (GetUserData "auth" "alice") (sample.world sample.t0)) /\
  @handlers.CreateToken sample.JWT sample.BC sample.ctx (sample.credentials "erin" "guess")
                        (sample.world sample.t0)
  = Done (gin.JSON (sample.credentials "erin" "guess") http.StatusUnauthorized
                   (gin.ErrorResponse gin.WrongUsernameOrPassword))
         (token.asked (GetUserData "auth" "erin") (sample.world sample.t0)).
Proof.
  split.
  - destruct (failed_login_answers (JWT := sample.JWT) (BC := sample.BC) sample.ctx
                (sample.credentials "alice" "guess") (models.User.mk "alice" "guess")
                (sample.world sample.t0) eq_refl ltac:(plainly) I) as (_ & HM & _).
    apply HM. exists sample.alice. repeat split; run.
  - destruct (failed_login_answers (JWT := sample.JWT) (BC := sample.BC) sample.ctx
                (sample.credentials "erin" "guess") (models.User.mk "erin" "guess")
                (sample.world sample.t0) eq_refl ltac:(plainly) I) as (_ & _ & HC).
    apply HC. left. left. run.
Defined.

Lemma returned_token_is_on_file_witness :
  exists creds rec,
    gin.ShouldBind (sample.credentials "alice" "pw1") = Some creds /\
    db (sample.world sample.t0) !! models.User.Username creds = Some rec /\
    db (sample.after sample.login) !! models.User.Username creds
    = Some (models.UserData.mk (models.UserData.Login rec) (models.UserData.Password rec)
                               (models.UserData.AgencyID rec) sample.tok).
Proof.
  apply (returned_token_is_on_file (JWT := sample.JWT) (BC := sample.BC) sample.ctx
           (sample.credentials "alice" "pw1") (sample.world sample.t0)
           (sample.reply sample.login) (sample.after sample.login) sample.tok).
  - left. run.
  - run.
Defined.

Lemma createToken_expiry_witness :
  exists exp,
    @jwt.SignedString _ sample.JWT "HS256"
      (handlers.mkClaims "alice" 7
         (jwt.mkRegisteredClaims (Some exp) None (Some (jwt.NewNumericDate sample.t0))))
      "5ec2e7" = Some sample.tok /\
    sample.t0 < exp <= sample.t0 + main.TokenTTL /\
    exp mod time.Second = 0 /\
    (main.TokenTTL mod time.Second = 0 ->
     exp = jwt.NewNumericDate sample.t0 + main.TokenTTL).
Proof.
  apply (createToken_expiry (JWT := sample.JWT) sample.ctx "alice" 7
           (sample.world sample.t0) sample.tok (sample.world sample.t0)); run.
Defined.

Lemma issued_token_parses_witness :
  exists claims,
    @handlers.parseAndValidateToken sample.JWT sample.ctx sample.tok
                                    (sample.world (sample.t0 + 1))
    = Done (inr claims) (time.advance (sample.world (sample.t0 + 1))) /\
    handlers.Username claims = "alice" /\ handlers.AgencyID claims = 7.
Proof.
  apply (issued_token_parses (JWT := sample.JWT) sample.ctx "alice" 7
           (sample.world sample.t0) sample.tok (sample.world sample.t0)
           (sample.world (sample.t0 + 1))); try run.
  faithful_by_running.
Defined.

Lemma stored_token_round_trip_witness :
  exists w2,
    client.GetUser (client.NewAPIClient sample.cfg) "alice"
      (sample.after (client.UpdateToken (client.NewAPIClient sample.cfg)
                                        "alice" "a.b.c" (sample.world sample.t0)))
    = Done (inr (models.UserData.mk "alice" "hash:pw1" 7 "a.b.c")) w2.
Proof.
  destruct (stored_token_round_trip (client.NewAPIClient sample.cfg) "alice" "a.b.c"
              (sample.world sample.t0) sample.alice) as [HU _]; [plainly | run | run |].
  destruct (HU (sample.after (client.UpdateToken (client.NewAPIClient sample.cfg)
                                "alice" "a.b.c" (sample.world sample.t0))))
    as [HG _]; [run|].
  apply HG. run.
Defined.

Lemma refresh_copies_claims_witness :
  exists claims,
    @token.verified sample.JWT sample.ctx (middleware.bearerToken sample.tok) = Some claims /\
    @jwt.SignedString _ sample.JWT "HS256"
      (handlers.newClaims (handlers.Username claims) (handlers.AgencyID claims)
         (sample.t0 + 5 * time.Second + main.TokenTTL) (sample.t0 + 5 * time.Second))
      "5ec2e7" = Some (sample.access_token sample.refresh_later) /\
    exists rec, db (sample.after sample.refresh_later) !! handlers.Username claims = Some rec /\
                models.UserData.JWTToken rec = sample.access_token sample.refresh_later.
Proof.
  apply (refresh_copies_claims (JWT := sample.JWT) sample.ctx sample.tok None
           (sample.at_time (sample.t0 + 5 * time.Second) (sample.after sample.login))
           (sample.reply sample.refresh_later) (sample.after sample.refresh_later)
           (sample.access_token sample.refresh_later)); run.
Defined.

Lemma Login_and_CreateToken_agree_witness :
  sample.after (@handlers.Login sample.JWT sample.BC sample.ctx
                  (gin.boundJSON EmptyString scenario.as_json) (sample.world sample.t0))
  = sample.after (@handlers.CreateToken sample.JWT sample.BC sample.ctx
                    (gin.boundByContentType EmptyString scenario.as_json)
                    (sample.world sample.t0)) /\
  @handlers.Login sample.JWT sample.BC sample.ctx
    (gin.boundJSON EmptyString scenario.as_form) (sample.world sample.t0)
  = Done (gin.JSON (gin.boundJSON EmptyString scenario.as_form) http.StatusBadRequest
                   (gin.ErrorResponse gin.BadRequestData))
         (sample.world sample.t0) /\
  sample.response (@handlers.CreateToken sample.JWT sample.BC sample.ctx
                     (gin.boundByContentType EmptyString scenario.as_form)
                     (sample.world sample.t0))
  = Some (http.StatusOK, gin.TokenResponse sample.tok "bearer").
Proof.
  destruct (Login_and_CreateToken_agree (JWT := sample.JWT) (BC := sample.BC) sample.ctx
              EmptyString scenario.as_json (sample.world sample.t0)) as [HJ _].
  destruct (Login_and_CreateToken_agree (JWT := sample.JWT) (BC := sample.BC) sample.ctx
              EmptyString scenario.as_form (sample.world sample.t0)) as [_ HF].
  split; [|split; [apply HF; reflexivity | run]].
  specialize (HJ eq_refl).
  destruct (handlers.Login _ _ _) as [c1 w1|w1], (handlers.CreateToken _ _ _) as [c2 w2|w2];
    simpl; try contradiction; [now destruct HJ | exact HJ].
Defined.

Lemma Login_touches_one_record_witness :
  sample.response scenario.login_unanswered
  = Some (http.StatusInternalServerError, gin.ErrorResponse gin.TokenUpdateFailed) /\
  db (sample.after scenario.login_unanswered) !! "alice"
  = Some (http.set_token sample.alice sample.tok) /\
  forall k, k <> "alice" ->
            db (sample.after scenario.login_unanswered) !! k = sample.store !! k.
Proof.
  split; [run | split; [run|]].
  pose proof (Login_touches_one_record (JWT := sample.JWT) (BC := sample.BC) sample.ctx
                (sample.credentials "alice" "pw1")
                (scenario.second_answer_lost (sample.world sample.t0))) as H.
  change (@handlers.Login sample.JWT sample.BC sample.ctx (sample.credentials "alice" "pw1")
            (scenario.second_answer_lost (sample.world sample.t0)))
    with scenario.login_unanswered in H.
  destruct scenario.login_unanswered as [c1 w1|w1] eqn:E; [|discriminate E].
  destruct H as [_ H].
  exact (proj1 (H (models.User.mk "alice" "pw1") eq_refl)).
Defined.

Lemma logout_route_effects_witness :
  (exists rec,
     db (sample.after sample.login) !! "alice" = Some rec /\
     db (sample.after scenario.logout_unanswered)
     = <["alice" := http.set_token rec EmptyString]> (db (sample.after sample.login))) /\
  sample.response scenario.logout_unanswered
  = Some (http.StatusInternalServerError, gin.ErrorResponse gin.TokenDeleteFailed).
Proof.
  destruct (logout_route_effects (JWT := sample.JWT) sample.ctx sample.tok None
              (scenario.second_answer_lost (sample.after sample.login))
              (sample.reply scenario.logout_unanswered)
              (sample.after scenario.logout_unanswered))
    as [(claims & _ & Hw & _) | [(claims & V & Hw & _ & Hdb) | (_ & Hw & _)]].
  - run.
  - vm_compute in Hw. discriminate Hw.
  - vm_compute in V. injection V as <-.
    split; [|exact Hw].
    destruct Hdb as [Hdb|Hdb]; [vm_compute in Hdb; discriminate Hdb | exact Hdb].
  - exfalso. apply Hw. run.
Defined.

Lemma garbled_input_is_malformed_witness :
  @handlers.ValidateToken sample.JWT sample.ctx "not.a.token.at.all" (sample.world sample.t0)
  = Done (inl (ErrInvalidToken (ErrJWT jwt.ErrTokenMalformed))) (sample.world sample.t0).
Proof.
  apply (garbled_input_is_malformed (JWT := sample.JWT) sample.ctx "not.a.token.at.all"
           (sample.world sample.t0)).
  - unfold token.garbled. simpl. lia.
  - simpl. lia.
Defined.
